(** * NEXUS PRO (nexus_pro_mac.py): readiness bootstrap and streaming gateway

    A shallow embedding of the launcher's dependency bootstrap
    ([ollama_ok], [list_models], [ensure_ollama_installed],
    [ensure_model_ready]) and of the chat gateway ([dbg], [stream_ollama],
    [chat] and its generator [gen]), followed by the properties of the
    specification that concern them.

    Conventions.
    - A Python [str] is a Rocq [string], one character per code point
      (code points below 256); the diagnostics of the program are kept as
      the byte strings of the source text.
    - External behaviour (the backend's HTTP answers, subprocess results,
      the clock) is scripted in the [world]: each call consumes the next
      scripted answer and is recorded in the world's [trace].
    - A Python exception is a value of [exn]; code that may raise returns a
      [result]. *)

From Stdlib Require Import Ascii String ZArith NArith Floats.
From stdpp Require Import base option list strings gmap.

Open Scope string_scope.
Open Scope list_scope.
Open Scope Z_scope.

(** ** Python values *)

Module Py.

(** The exception classes the program can meet. The text [str(e)] of an
    exception is a parameter of the program below. *)
Inductive exn : Type :=
  | ConnectionError      (* requests: refused, reset, read timeout *)
  | HTTPError (status : Z) (* Response.raise_for_status *)
  | JSONDecodeError
  | AttributeError
  | TypeError
  | KeyError
  | ValueError
  | OSError
  | TimeoutExpired       (* subprocess.run(timeout=...) *)
  | HTTPException (code : Z) (* werkzeug: Flask answers with this status *)
  | DatabaseError.       (* sqlite3.Error *)

Inductive result (A : Type) : Type :=
  | Ok (a : A)
  | Raise (e : exn).
Arguments Ok {A} a.
Arguments Raise {A} e.

Definition bind {A B} (r : result A) (k : A -> result B) : result B :=
  match r with
  | Ok a => k a
  | Raise e => Raise e
  end.

(** What [json.loads] and [Response.json] return. *)
#[warnings="-register-all"] Inductive json : Type :=
  | JNull
  | JBool (b : bool)
  | JInt (n : Z)
  | JFloat (f : float)
  | JStr (s : string)
  | JArr (items : list json)
  | JObj (fields : list (string * json)).

(** Truth value testing ([if x:], [x or y], [x and y]). *)
Definition truthy (j : json) : bool :=
  match j with
  | JNull => false
  | JBool b => b
  | JInt n => negb (n =? 0)
  | JFloat f => negb (PrimFloat.eqb f 0%float)
  | JStr s => negb (String.eqb s "")
  | JArr items => match items with [] => false | _ => true end
  | JObj fields => match fields with [] => false | _ => true end
  end.

Definition str_truthy (s : string) : bool := negb (String.eqb s "").

(** [dict.get] on the fields of an object. *)
Fixpoint assoc (k : string) (fields : list (string * json)) : option json :=
  match fields with
  | [] => None
  | (k', v) :: rest => if String.eqb k k' then Some v else assoc k rest
  end.

(** [d.get(k, default)]: only a dict has [get]. *)
Definition get (d : json) (k : string) (default : json) : result json :=
  match d with
  | JObj fields => Ok (match assoc k fields with Some v => v | None => default end)
  | _ => Raise AttributeError
  end.

(** *** [str.strip]

    The characters below 256 for which [str.isspace] holds: tab to carriage
    return, the four separators 0x1c-0x1f, space, NEL and the no-break
    space. *)
Definition isspace (c : ascii) : bool :=
  let n := N_of_ascii c in
  ((9 <=? n) && (n <=? 13) || (28 <=? n) && (n <=? 32) || (n =? 133) || (n =? 160))%N.

Fixpoint lstrip_with (sp : ascii -> bool) (s : string) : string :=
  match s with
  | String c r => if sp c then lstrip_with sp r else s
  | EmptyString => EmptyString
  end.

Fixpoint rstrip_with (sp : ascii -> bool) (s : string) : string :=
  match s with
  | String c r =>
      let r' := rstrip_with sp r in
      if sp c && String.eqb r' "" then "" else String c r'
  | EmptyString => EmptyString
  end.

Definition strip (s : string) : string := rstrip_with isspace (lstrip_with isspace s).

(** *** [float]

    The value [float(s)] denotes, before rounding to a binary64: a decimal
    [(-1)^neg * mantissa * 10^exp10], an infinity or a NaN. Rounding is not
    modelled; which strings are accepted is. *)
Inductive pyfloat : Type :=
  | FDec (neg : bool) (mantissa : N) (exp10 : Z)
  | FInf (neg : bool)
  | FNan.

Definition is_digit (c : ascii) : bool :=
  let n := N_of_ascii c in ((48 <=? n) && (n <=? 57))%N.

Definition digit_val (c : ascii) : N := (N_of_ascii c - 48)%N.

(** The rest of a [digitpart ::= digit (["_"] digit)*] once a digit has been
    read: the digits read so far as a number, how many there are, and what
    follows them. An underscore is taken only between two digits. *)
Fixpoint digits_more (acc : N) (cnt : Z) (s : string) : N * Z * string :=
  match s with
  | String c r =>
      if is_digit c then digits_more (10 * acc + digit_val c)%N (cnt + 1) r
      else if Ascii.eqb c "_" then
        match r with
        | String d r' =>
            if is_digit d then digits_more (10 * acc + digit_val d)%N (cnt + 1) r'
            else (acc, cnt, s)
        | EmptyString => (acc, cnt, s)
        end
      else (acc, cnt, s)
  | EmptyString => (acc, cnt, s)
  end.

Definition digitpart (acc : N) (s : string) : option (N * Z * string) :=
  match s with
  | String c r => if is_digit c then Some (digits_more (10 * acc + digit_val c)%N 1 r) else None
  | EmptyString => None
  end.

(** [number ::= [digitpart] "." digitpart | digitpart ["."]]: the mantissa,
    the number of digits after the point, and the rest. *)
Definition number (s : string) : option (N * Z * string) :=
  match s with
  | String "." r => digitpart 0 r
  | _ =>
      match digitpart 0 s with
      | Some (m, _, String "." r) =>
          match digitpart m r with
          | Some frac => Some frac
          | None => Some (m, 0, r)
          end
      | Some (m, _, r) => Some (m, 0, r)
      | None => None
      end
  end.

(** [[sign]]: whether a minus was read, and the rest. *)
Definition sign (s : string) : bool * string :=
  match s with
  | String "-" r => (true, r)
  | String "+" r => (false, r)
  | _ => (false, s)
  end.

(** [exponent ::= ("e" | "E") [sign] digitpart], when there is one. *)
Definition exponent (s : string) : option (Z * string) :=
  match s with
  | String c r =>
      if Ascii.eqb c "e" || Ascii.eqb c "E" then
        let '(neg, r1) := sign r in
        match digitpart 0 r1 with
        | Some (e, _, r2) => Some (if neg then - Z.of_N e else Z.of_N e, r2)
        | None => None
        end
      else Some (0, s)
  | EmptyString => Some (0, s)
  end.

Definition lower (c : ascii) : ascii :=
  let n := N_of_ascii c in
  if ((65 <=? n) && (n <=? 90))%N then ascii_of_N (n + 32) else c.

Fixpoint lowercase (s : string) : string :=
  match s with
  | String c r => String (lower c) (lowercase r)
  | EmptyString => EmptyString
  end.

(** The characters [float] drops at both ends of a [str]. *)
Definition float_space (c : ascii) : bool :=
  let n := N_of_ascii c in
  ((9 <=? n) && (n <=? 13) || (n =? 32) || (n =? 133) || (n =? 160))%N.

(** [float(s)] for a [str]: [ValueError] unless the stripped string is a
    [floatvalue] of the language reference. *)
Definition float_of_str (s : string) : result pyfloat :=
  let s := rstrip_with float_space (lstrip_with float_space s) in
  let '(neg, body) := sign s in
  let word := lowercase body in
  if String.eqb word "inf" || String.eqb word "infinity" then Ok (FInf neg)
  else if String.eqb word "nan" then Ok FNan
  else
    match number body with
    | Some (m, frac, r) =>
        match exponent r with
        | Some (e, EmptyString) => Ok (FDec neg m (e - frac))
        | _ => Raise ValueError
        end
    | None => Raise ValueError
    end.

End Py.

Import Py.

(** ** The world outside the program *)

(** An HTTP response of the backend, as far as the program looks at it:
    the status line, what [Response.json()] makes of the body, and the body
    as [Response.iter_lines()] delivers it. *)
Inductive line : Type :=
  | Blank                          (* an empty line: [if line:] skips it *)
  | Data (loads : result json).    (* a non-empty line, with what [json.loads] makes of it *)

Inductive lines : Type :=
  | Eof                            (* the body ends *)
  | Broken (e : exn)               (* the connection fails while reading *)
  | Next (l : line) (rest : lines).

Record response : Type := Response {
  status_code : Z;
  json_body : result json;
  iter_lines : lines
}.

(** What [subprocess.run] (or [Popen]) does: its exit code (or pid) unless it
    raises, and the executables it leaves on the search path. *)
Record proc_answer : Type := ProcAnswer {
  proc_result : result Z;
  proc_installs : gmap string string
}.

(** The body of the request the gateway posts to the backend's chat
    endpoint. *)
Record chat_request : Type := ChatRequest {
  cr_model : json;
  cr_messages : list (string * string);   (* role, content *)
  cr_stream : bool;
  cr_temperature : pyfloat;
  cr_system : string
}.

(** The external actions of the program, as recorded in the trace. *)
Inductive call : Type :=
  | Run (cmd : list string)                      (* subprocess.run / Popen *)
  | HttpGet (url : string)                       (* requests.get *)
  | HttpPost (url : string) (body : chat_request) (* requests.post *)
  | BrowserOpen (url : string).                  (* webbrowser.open *)

Record world : Type := World {
  search_path : gmap string string;    (* executable name -> location, for shutil.which *)
  files : gmap string string;          (* the files that exist, with their text *)
  database : result (gmap string string);  (* the settings table, or what sqlite raises *)
  clock : string;                      (* datetime.now().isoformat() *)
  http : list (result response);       (* the backend's answers to the coming requests *)
  procs : list proc_answer;            (* the outcomes of the coming subprocesses *)
  trace : list call                    (* the external actions so far, oldest first *)
}.

(** Programs over the world. *)
Definition M (A : Type) : Type := world -> A * world.

Definition ret {A} (a : A) : M A := fun w => (a, w).

Definition bindM {A B} (m : M A) (k : A -> M B) : M B :=
  fun w => let '(a, w') := m w in k a w'.

Notation "'let*' x := c 'in' k" := (bindM c (fun x => k))
  (at level 10, x name, c at level 100, k at level 200).

Definition record (c : call) : M unit :=
  fun w => (tt, World (search_path w) (files w) (database w) (clock w) (http w) (procs w)
                      (trace w ++ [c])).

(** [shutil.which] *)
Definition which (name : string) : M (option string) :=
  fun w => (search_path w !! name, w).

(** [Path.exists] *)
Definition path_exists (p : string) : M bool :=
  fun w => (match files w !! p with Some _ => true | None => false end, w).

(** [Path.write_text] *)
Definition write_text (p text : string) : M unit :=
  fun w => (tt, World (search_path w) (<[p := text]> (files w)) (database w) (clock w)
                      (http w) (procs w) (trace w)).

Definition datetime_now_isoformat : M string := fun w => (clock w, w).

(** The next scripted answer of the backend; a request for which nothing is
    scripted finds the backend unreachable. *)
Definition next_response : M (result response) :=
  fun w =>
    match http w with
    | r :: rest =>
        (r, World (search_path w) (files w) (database w) (clock w) rest (procs w) (trace w))
    | [] => (Raise ConnectionError, w)
    end.

Definition requests_get (url : string) : M (result response) :=
  let* _ := record (HttpGet url) in next_response.

Definition requests_post (url : string) (body : chat_request) : M (result response) :=
  let* _ := record (HttpPost url body) in next_response.

(** The next scripted subprocess outcome; a subprocess for which nothing is
    scripted cannot be started. *)
Definition subprocess_run (cmd : list string) : M (result Z) :=
  let* _ := record (Run cmd) in
  fun w =>
    match procs w with
    | a :: rest =>
        (proc_result a,
         World (proc_installs a ∪ search_path w) (files w) (database w) (clock w) (http w) rest
               (trace w))
    | [] => (Raise OSError, w)
    end.

Definition webbrowser_open (url : string) : M unit := record (BrowserOpen url).

(** ** The program *)

Definition nl : string := String (ascii_of_nat 10) EmptyString.

(** [Path(a) / b] *)
Definition joinpath (a b : string) : string := a +:+ "/" +:+ b.
Infix "</>" := joinpath (at level 40, left associativity).

(** [s.replace(old, new)] for single characters. *)
Fixpoint replace (old new : ascii) (s : string) : string :=
  match s with
  | String c r => String (if Ascii.eqb c old then new else c) (replace old new r)
  | EmptyString => EmptyString
  end.

(** [x in names] for a [str] x: only an equal [str] is equal to it. *)
Definition contains (names : list json) (x : string) : bool :=
  existsb (fun j => match j with JStr s => String.eqb s x | _ => false end) names.

(** A sample machine: the home directory, the bundle's resources, and a
    rendering of exceptions by the name of their class. *)
Definition dev_home : string := "/Users/dev".
Definition dev_resources : string := "/Applications/NEXUS PRO.app/Contents/Resources".

Definition class_name (e : exn) : string :=
  match e with
  | ConnectionError => "ConnectionError"
  | HTTPError _ => "HTTPError"
  | JSONDecodeError => "JSONDecodeError"
  | AttributeError => "AttributeError"
  | TypeError => "TypeError"
  | KeyError => "KeyError"
  | ValueError => "ValueError"
  | OSError => "OSError"
  | TimeoutExpired => "TimeoutExpired"
  | HTTPException _ => "HTTPException"
  | DatabaseError => "DatabaseError"
  end.

Section Program.

(** The user's home directory ([os.path.expanduser("~")]), the directory of
    the bundled resources ([_resource_base()]) and [str] on exceptions. *)
Variable HOME : string.
Variable RESOURCE_BASE : string.
Variable str : exn -> string.

Definition APP_SUPPORT : string := HOME </> "Library/Application Support/NexusPro".
Definition LOG_DIR : string := HOME </> "Library/Logs/NEXUS_PRO".
Definition STARTUP_LOG_PATH : string := LOG_DIR </> "startup.log".

Definition APP_PORT : Z := 7100.
Definition OLLAMA : string := "http://localhost:11434".
Definition MODEL_NAME : string := "qwen2.5-coder:7b".
Definition OLLAMA_SETUP_FLAG : string := APP_SUPPORT </> "ollama_setup_attempted.flag".
Definition MODEL_READY_FLAG : string :=
  APP_SUPPORT </> ("model_ready_" +:+ replace ":" "_" MODEL_NAME +:+ ".flag").

Definition bundled_model_dir : string := RESOURCE_BASE </> "bundled_models" </> MODEL_NAME.

(** [_run_logged]: [subprocess.run] with its result logged. *)
Definition _run_logged (cmd : list string) : M (result Z) := subprocess_run cmd.

(** *** Health prober *)

Definition ollama_ok : M bool :=
  let* r := requests_get (OLLAMA +:+ "/api/tags") in
  match r with
  | Ok _ => ret true
  | Raise _ => ret false
  end.

(** [m["name"]] *)
Definition name_of (m : json) : result json :=
  match m with
  | JObj fields => match assoc "name" fields with Some v => Ok v | None => Raise KeyError end
  | _ => Raise TypeError
  end.

Fixpoint names_of (ms : list json) : result (list json) :=
  match ms with
  | [] => Ok []
  | m :: rest =>
      Py.bind (name_of m) (fun n => Py.bind (names_of rest) (fun ns => Ok (n :: ns)))
  end.

(** [[m["name"] for m in models]]: iterating a dict or a str yields strs,
    which cannot be indexed by a name; other values cannot be iterated. *)
Definition comprehension (models : json) : result (list json) :=
  match models with
  | JArr ms => names_of ms
  | JObj [] => Ok []
  | JStr EmptyString => Ok []
  | _ => Raise TypeError
  end.

Definition list_models : M (list json) :=
  let* r := requests_get (OLLAMA +:+ "/api/tags") in
  match Py.bind r (fun resp =>
        Py.bind (json_body resp) (fun body =>
        Py.bind (get body "models" (JArr [])) comprehension)) with
  | Ok names => ret names
  | Raise _ => ret []
  end.

(** *** Backend installer and launcher *)

Definition installer_url : string := "https://ollama.com/download/Ollama-darwin.zip".

Definition ensure_ollama_installed : M (bool * string) :=
  let* found := which "ollama" in
  match found with
  | Some _ => ret (true, "")
  | None =>
      let* brew := which "brew" in
      let* installed :=
        match brew with
        | Some _ =>
            let* p := _run_logged ["brew"; "install"; "ollama"] in
            match p with
            | Ok returncode =>
                let* now := datetime_now_isoformat in
                let* _ := write_text OLLAMA_SETUP_FLAG now in
                let* found := which "ollama" in
                ret ((returncode =? 0) && match found with Some _ => true | None => false end)
            | Raise _ => ret false
            end
        | None => ret false
        end in
      if installed then ret (true, "")
      else
        let* _ := webbrowser_open installer_url in
        ret (false,
             "Ollama が見つかりません。初回セットアップを試みましたが完了できませんでした。" +:+ nl
             +:+ "ブラウザでインストーラを開いてください: " +:+ installer_url +:+ nl
             +:+ "ログ保存先: " +:+ STARTUP_LOG_PATH)
  end.

(** The polling loop of [ensure_ollama_running]: one probe per second. *)
Fixpoint wait_ollama (retry_seconds : nat) : M bool :=
  match retry_seconds with
  | O => ret false
  | S n =>
      let* ok := ollama_ok in
      if ok then ret true else wait_ollama n
  end.

Definition ensure_ollama_running (retry_seconds : nat) : M (bool * string) :=
  let* ok := ollama_ok in
  if ok then ret (true, "")
  else
    let* ollama_bin := which "ollama" in
    let* located :=
      match ollama_bin with
      | Some bin => ret (inl bin)
      | None =>
          let* r := ensure_ollama_installed in
          if fst r then
            let* ollama_bin := which "ollama" in
            match ollama_bin with
            | Some bin => ret (inl bin)
            | None =>
                ret (inr ("Ollama インストール後もコマンドが見つかりません。" +:+ nl
                                +:+ "ログ保存先: " +:+ STARTUP_LOG_PATH))
            end
          else ret (inr (snd r))
      end in
    match located with
    | inr err => ret (false, err)
    | inl bin =>
        let* p := subprocess_run [bin; "serve"] in
        match p with
        | Raise e =>
            ret (false, "Ollama の自動起動に失敗しました: " +:+ str e +:+ nl
                        +:+ "ログ保存先: " +:+ STARTUP_LOG_PATH)
        | Ok _ =>
            let* ok := wait_ollama retry_seconds in
            if ok then ret (true, "")
            else ret (false, "Ollama 起動待ちがタイムアウトしました。" +:+ nl
                             +:+ "ログ保存先: " +:+ STARTUP_LOG_PATH)
        end
    end.

(** *** Model provisioner *)

Definition ensure_model_ready : M (bool * string) :=
  let* models := list_models in
  if contains models MODEL_NAME then
    let* now := datetime_now_isoformat in
    let* _ := write_text MODEL_READY_FLAG now in
    ret (true, "")
  else
    let model_dir := bundled_model_dir in
    let modelfile := model_dir </> "Modelfile" in
    let* bundled := path_exists modelfile in
    if negb bundled then
      ret (false, "同梱モデルが見つかりません: " +:+ modelfile +:+ nl
                  +:+ "ログ保存先: " +:+ STARTUP_LOG_PATH)
    else
      let* attempted := path_exists MODEL_READY_FLAG in
      if attempted then
        ret (false, "モデル『" +:+ MODEL_NAME +:+ "』が未登録ですが初回自動準備は実施済みです。" +:+ nl
                    +:+ "ログ保存先: " +:+ STARTUP_LOG_PATH)
      else
        let* p := _run_logged ["ollama"; "create"; MODEL_NAME; "-f"; modelfile] in
        match p with
        | Raise e =>
            ret (false, "モデル準備でエラーが発生しました: " +:+ str e +:+ nl
                        +:+ "ログ保存先: " +:+ STARTUP_LOG_PATH)
        | Ok returncode =>
            if negb (returncode =? 0) then
              ret (false, "モデル準備に失敗しました。" +:+ nl
                          +:+ "ログ保存先: " +:+ STARTUP_LOG_PATH)
            else
              let* models := list_models in
              if contains models MODEL_NAME then
                let* now := datetime_now_isoformat in
                let* _ := write_text MODEL_READY_FLAG now in
                ret (true, "")
              else
                ret (false, "モデル準備後も登録確認できませんでした。" +:+ nl
                            +:+ "ログ保存先: " +:+ STARTUP_LOG_PATH)
        end.

(** *** Settings store *)

(** The rows [init_db] seeds ([INSERT OR IGNORE]: a stored row wins). *)
Definition seeded : gmap string string :=
  {[ "system_prompt" := ""; "context_length" := "20"; "temperature" := "0.7" ]}.

Definition init_db : M unit :=
  fun w =>
    (tt, World (search_path w) (files w)
               (match database w with Ok rows => Ok (rows ∪ seeded) | Raise e => Raise e end)
               (clock w) (http w) (procs w) (trace w)).

(** [dbg(k)]: the stored value, [None] without a row; sqlite may raise. *)
Definition dbg (k : string) : M (result (option string)) :=
  fun w =>
    (match database w with Ok rows => Ok (rows !! k) | Raise e => Raise e end, w).

(** *** Streaming gateway *)

(** What the generator [stream_ollama] does when it is advanced: it stops,
    raises, or yields a pair [(content, done)] and goes on. *)
Inductive pulls : Type :=
  | Stop
  | Throw (e : exn)
  | Yield (content done : json) (rest : pulls).

Definition raise_for_status (resp : response) : result unit :=
  if (400 <=? status_code resp) && (status_code resp <? 600)
  then Raise (HTTPError (status_code resp)) else Ok tt.

(** [d.get("message", {}).get("content", ""), d.get("done", False)] *)
Definition unit_of (d : json) : result (json * json) :=
  Py.bind (get d "message" (JObj [])) (fun message =>
  Py.bind (get message "content" (JStr "")) (fun content =>
  Py.bind (get d "done" (JBool false)) (fun done =>
  Ok (content, done)))).

(** The loop over [resp.iter_lines()]. *)
Fixpoint decode (ls : lines) : pulls :=
  match ls with
  | Eof => Stop
  | Broken e => Throw e
  | Next Blank rest => decode rest
  | Next (Data (Raise e)) _ => Throw e
  | Next (Data (Ok d)) rest =>
      match unit_of d with
      | Ok (content, done) => Yield content done (decode rest)
      | Raise e => Throw e
      end
  end.

Definition stream_ollama (model : json) (messages : list (string * string))
    (system : string) (temp : pyfloat) : M pulls :=
  let* r := requests_post (OLLAMA +:+ "/api/chat")
                          (ChatRequest model messages true temp system) in
  match r with
  | Raise e => ret (Throw e)
  | Ok resp =>
      match raise_for_status resp with
      | Raise e => ret (Throw e)
      | Ok _ => ret (decode (iter_lines resp))
      end
  end.

(** The events of the outbound stream: [{'text': chunk}], [{'done': True}]
    and [{'error': str(e)}], each framed as [data: ...] and a blank line. *)
Inductive event : Type :=
  | EText (text : string)
  | EDone
  | EError (error : string).

(** The body of [gen]'s [for] loop with its [try]: [full += chunk] raises
    unless the chunk is a [str]. *)
Fixpoint relay (full : string) (ps : pulls) : list event :=
  match ps with
  | Stop => [EDone]
  | Throw e => [EError (str e)]
  | Yield chunk done rest =>
      match chunk with
      | JStr s =>
          EText s :: (if truthy done then [EDone] else relay (full +:+ s) rest)
      | _ => [EError (str TypeError)]
      end
  end.

Definition default_temperature : pyfloat := FDec false 7 (-1).

(** [float(dbg("temperature") or 0.7)] *)
Definition temperature : M (result pyfloat) :=
  let* stored := dbg "temperature" in
  ret (Py.bind stored (fun v =>
         match v with
         | Some s => if str_truthy s then float_of_str s else Ok default_temperature
         | None => Ok default_temperature
         end)).

Definition gen (model : json) (msg : string) : M (list event) :=
  let* temp := temperature in
  match temp with
  | Raise e => ret [EError (str e)]
  | Ok temp =>
      let* ps := stream_ollama model [("user", msg)] "" temp in
      ret (relay "" ps)
  end.

(** What the route answers: a JSON error with its status, the event stream
    (status 200), or an exception left to Flask (the status of an
    [HTTPException], 500 for any other). *)
Inductive reply : Type :=
  | Json (error : string) (status : Z)
  | EventStream (events : list event)
  | Unhandled (e : exn).

Definition reply_status (r : reply) : Z :=
  match r with
  | Json _ status => status
  | EventStream _ => 200
  | Unhandled (HTTPException code) => code
  | Unhandled _ => 500
  end.

(** [x.strip()] on what [d.get] returned: only a [str] has [strip]. *)
Definition strip_of (x : json) : result string :=
  match x with
  | JStr s => Ok (strip s)
  | _ => Raise AttributeError
  end.

(** The route [POST /api/chat]; [request_json] is what [request.json]
    evaluates to. *)
Definition chat (request_json : result json) : M reply :=
  match request_json with
  | Raise e => ret (Unhandled e)
  | Ok j =>
      let d := if truthy j then j else JObj [] in
      match Py.bind (get d "message" (JStr "")) strip_of with
      | Raise e => ret (Unhandled e)
      | Ok msg =>
          match get d "model" (JStr "") with
          | Raise e => ret (Unhandled e)
          | Ok model =>
              if negb (str_truthy msg && truthy model) then
                ret (Json "message/model が必要" 400)
              else
                let* ok := ollama_ok in
                if negb ok then
                  ret (Json ("Ollama が起動していません。" +:+ nl
                             +:+ "ログ保存先: " +:+ STARTUP_LOG_PATH) 503)
                else
                  let* events := gen model msg in
                  ret (EventStream events)
          end
      end
  end.

(** *** The status route *)

(** The object [GET /api/status] answers with. *)
Record status_reply : Type := StatusReply {
  st_ollama : bool;
  st_online : bool;
  st_models : list json
}.

(** [status]: the values of the dict display are evaluated in order, the
    condition of the conditional expression before its branch. *)
Definition status : M status_reply :=
  let* ollama := ollama_ok in
  let* again := ollama_ok in
  let* models := (if again then list_models else ret []) in
  ret (StatusReply ollama true models).

(** *** Startup *)

(** [main], up to the start of the server thread: [Some msg] when it
    leaves through [fail_and_exit(msg)] (exit status 1), [None] when the
    backend and the model are ready. [port_in_use] is what
    [_port_in_use(APP_PORT)] returns. *)
Definition main (port_in_use : bool) : M (option string) :=
  if port_in_use then
    ret (Some "ポート 7100 はすでに使用されています。別プロセスを停止後に再実行してください。")
  else
    let* r := ensure_ollama_running 30 in
    if negb (fst r) then ret (Some (snd r))
    else
      let* r := ensure_model_ready in
      if negb (fst r) then ret (Some (snd r))
      else ret None.

(** *** The backend's protocol, for stating the properties

    A fragment is one unit [{"message": {"content": c}, "done": d}] of the
    backend's newline-delimited answer. *)
Definition fragment : Type := string * bool.

Definition unit_json (f : fragment) : json :=
  JObj [("message", JObj [("content", JStr (fst f))]); ("done", JBool (snd f))].

(** A body whose lines are the given fragments, continued by [tail]. *)
Fixpoint body_then (fs : list fragment) (tail : lines) : lines :=
  match fs with
  | [] => tail
  | f :: rest => Next (Data (Ok (unit_json f))) (body_then rest tail)
  end.

Definition body_of (fs : list fragment) : lines := body_then fs Eof.




Definition is_post (c : call) : bool :=
  match c with HttpPost _ _ => true | _ => false end.

Definition is_run (c : call) : bool :=
  match c with Run _ => true | _ => false end.

(** A chat request body [{"message": msg, "model": model}] as [request.json]
    returns it. *)
Definition chat_body (msg : string) (model : json) : json :=
  JObj [("message", JStr msg); ("model", model)].

(** A request body that passes the route's validation, with the message
    and the model the route extracts from it. *)
Definition well_formed (j : json) (msg : string) (model : json) : Prop :=
  exists fields s,
    j = JObj fields /\ assoc "message" fields = Some (JStr s) /\ strip s = msg /\
    msg <> "" /\ assoc "model" fields = Some model /\ truthy model = true.



(** What [stream_ollama] yields for the backend's answer to the chat
    request: [requests.post], [raise_for_status], then the lines. *)
Definition pulls_of (answers : list (result response)) : pulls :=
  match answers with
  | Ok resp :: _ =>
      match raise_for_status resp with
      | Ok _ => decode (iter_lines resp)
      | Raise e => Throw e
      end
  | Raise e :: _ => Throw e
  | [] => Throw ConnectionError
  end.

(** The pointer to the startup log that closes every diagnostic. *)
Definition log_pointer : string := "ログ保存先: " +:+ STARTUP_LOG_PATH.

Definition carries_log_pointer (msg : string) : Prop :=
  exists text, msg = text +:+ log_pointer.

(** A structured failure: [(False, msg)] with the log pointer in [msg]. *)
Definition structured_failure (r : bool * string) : Prop :=
  fst r = false /\ carries_log_pointer (snd r).

(** *** Process restarts

    A new process finds the search path, the files and the database as the
    previous one left them; its clock, the answers it will get and its trace
    are its own. *)
Record script : Type := Script {
  s_clock : string;
  s_http : list (result response);
  s_procs : list proc_answer
}.

Definition boot (s : script) (w : world) : world :=
  World (search_path w) (files w) (database w) (s_clock s) (s_http s) (s_procs s) [].

(** The successive runs of one program, each with its result and the world
    it leaves. *)
Fixpoint runs {A} (prog : M A) (ss : list script) (w : world) : list (A * world) :=
  match ss with
  | [] => []
  | s :: rest => let r := prog (boot s w) in r :: runs prog rest (snd r)
  end.

(** The subprocesses a run started. *)
Definition started {A} (r : A * world) : list call :=
  filter (fun c => is_run c = true) (trace (snd r)).

(** *** Reading the trace *)

Definition is_get (c : call) : bool :=
  match c with HttpGet _ => true | _ => false end.

Definition is_browser (c : call) : bool :=
  match c with BrowserOpen _ => true | _ => false end.

(** The number of requests to the status endpoint, of subprocesses and of
    chat requests in a trace. *)
Definition probes (t : list call) : nat := length (filter (fun c => is_get c = true) t).
Definition spawned (t : list call) : nat := length (filter (fun c => is_run c = true) t).
Definition posted (t : list call) : nat := length (filter (fun c => is_post c = true) t).

(** The backend does not answer: every pending request fails. *)
Definition unreachable (answers : list (result response)) : Prop :=
  Forall (fun a => match a with Raise _ => True | Ok _ => False end) answers.

(** The entry of a model in the registry's listing. *)
Definition entry (name : string) : json := JObj [("name", JStr name)].

(** The body of the status endpoint that lists the given models. *)
Definition listing (names : list string) : json :=
  JObj [("models", JArr (map entry names))].

(** The names [list_models] draws from one answer of the status endpoint. *)
Definition listed (a : result response) : list json :=
  match Py.bind a (fun resp =>
        Py.bind (json_body resp) (fun body =>
        Py.bind (get body "models" (JArr [])) comprehension)) with
  | Ok names => names
  | Raise _ => []
  end.

(** Whether a request got an answer. *)
Definition answered (a : option (result response)) : bool :=
  match a with Some (Ok _) => true | _ => false end.

(** A body without its blank lines. *)
Fixpoint without_blanks (ls : lines) : lines :=
  match ls with
  | Eof => Eof
  | Broken e => Broken e
  | Next Blank rest => without_blanks rest
  | Next l rest => Next l (without_blanks rest)
  end.

(** *** Sample worlds

    A developer's machine with the package manager and no backend, the
    backend's answers, and the bundled model definition. *)
Definition stamp : string := "2026-01-05T09:30:00.000000".

Definition blank_world : world := World ∅ ∅ (Ok seeded) stamp [] [] [].

Definition with_brew (w : world) : world :=
  World (<["brew" := "/opt/homebrew/bin/brew"]> (search_path w)) (files w) (database w)
        (clock w) (http w) (procs w) (trace w).

Definition with_ollama (w : world) : world :=
  World (<["ollama" := "/opt/homebrew/bin/ollama"]> (search_path w)) (files w) (database w)
        (clock w) (http w) (procs w) (trace w).

Definition with_file (p text : string) (w : world) : world :=
  World (search_path w) (<[p := text]> (files w)) (database w) (clock w) (http w) (procs w)
        (trace w).

Definition with_setting (k v : string) (w : world) : world :=
  World (search_path w) (files w)
        (match database w with Ok rows => Ok (<[k := v]> rows) | Raise e => Raise e end)
        (clock w) (http w) (procs w) (trace w).

Definition scripted (answers : list (result response)) (outcomes : list proc_answer)
    (w : world) : world :=
  World (search_path w) (files w) (database w) (clock w) answers outcomes (trace w).

(** The status endpoint's answer with the given registry. *)
Definition tags (names : list string) : response :=
  Response 200
    (Ok (JObj [("models", JArr (map (fun n => JObj [("name", JStr n)]) names))]))
    Eof.

(** The chat endpoint's answer with the given body. *)
Definition streaming (body : lines) : response :=
  Response 200 (Raise JSONDecodeError) body.

(** A subprocess that exits with the given code and installs nothing. *)
Definition exits (returncode : Z) : proc_answer := ProcAnswer (Ok returncode) ∅.

(** A subprocess that raises. *)
Definition raises (e : exn) : proc_answer := ProcAnswer (Raise e) ∅.

(** The gateway in front of a healthy backend that holds the model and
    answers the chat request with the given body. *)
Definition serving (body : lines) : world :=
  scripted [Ok (tags [MODEL_NAME]); Ok (streaming body)] [] blank_world.

Definition hello : list fragment := [("Hel", false); ("lo", true)].

Definition ask : json := chat_body "Say hello" (JStr MODEL_NAME).

(** The bundle as shipped: the model definition is there. *)
Definition bundled (w : world) : world :=
  with_file (bundled_model_dir </> "Modelfile") "FROM ./qwen2.5-coder-7b.gguf" w.

(** A start at which the registry is empty and the build exits with the
    given code. *)
Definition build_exits (returncode : Z) : script :=
  Script stamp [Ok (tags []); Ok (tags [])] [exits returncode].

(** A start at which the backend is down and not installed, and the
    package manager fails. *)
Definition brew_fails : script := Script stamp [] [exits 1].

(** ** Properties *)

(** *** Python values *)

Lemma strip_empty : strip "" = "".
Proof. reflexivity. Qed.

(** *** Streaming gateway *)







Lemma temperature_world (w : world) : snd (temperature w) = w.
Proof. unfold temperature, dbg, bindM, ret. reflexivity. Qed.

Lemma gen_unfold (model : json) (msg : string) (w : world) :
  gen model msg w =
  match fst (temperature w) with
  | Raise e => ([EError (str e)], w)
  | Ok temp =>
      let r := stream_ollama model [("user", msg)] "" temp w in
      (relay "" (fst r), snd r)
  end.
Proof.
  unfold gen, bindM at 1.
  pose proof (temperature_world w) as Hw.
  destruct (temperature w) as [t w'] eqn:E. cbn [fst snd] in *. subst w'.
  destruct t as [temp | e]; [| reflexivity].
  unfold bindM, ret. destruct (stream_ollama _ _ _ _ w). reflexivity.
Qed.

Lemma chat_well_formed (j : json) (msg : string) (model : json) (w : world) :
  well_formed j msg model ->
  chat (Ok j) w =
  (let* ok := ollama_ok in
   if negb ok then
     ret (Json ("Ollama が起動していません。" +:+ nl +:+ "ログ保存先: " +:+ STARTUP_LOG_PATH) 503)
   else
     let* events := gen model msg in
     ret (EventStream events)) w.
Proof.
  intros (fields & s & -> & Hmsg & Hstrip & Hne & Hmodel & Htruthy).
  unfold chat.
  assert (truthy (JObj fields) = true) as ->
    by (destruct fields; [discriminate | reflexivity]).
  cbn [get Py.bind]. rewrite Hmsg, Hmodel. cbn [strip_of Py.bind]. rewrite Hstrip.
  unfold str_truthy. rewrite Htruthy.
  apply String.eqb_neq in Hne. rewrite Hne. reflexivity.
Qed.

(** The probe of a backend that answers, and the world it leaves. *)
Lemma ollama_ok_answer (w : world) (probe : response) (rest : list (result response)) :
  http w = Ok probe :: rest ->
  ollama_ok w =
  (true, World (search_path w) (files w) (database w) (clock w) rest (procs w)
               (trace w ++ [HttpGet (OLLAMA +:+ "/api/tags")])).
Proof.
  intros H. unfold ollama_ok, requests_get, next_response, record, bindM, ret.
  cbn. rewrite H. reflexivity.
Qed.

Lemma stream_ollama_pulls model messages system temp (w : world) :
  fst (stream_ollama model messages system temp w) = pulls_of (http w).
Proof.
  unfold stream_ollama, requests_post, next_response, record, bindM, ret, pulls_of.
  cbn. destruct (http w) as [| [resp | e] rest]; cbn; try reflexivity.
  destruct (raise_for_status resp); reflexivity.
Qed.

(** The events of a request that passes validation and the health check. *)
Lemma chat_events (j : json) (msg : string) (model : json) (w : world)
    (probe : response) (rest : list (result response)) :
  well_formed j msg model ->
  http w = Ok probe :: rest ->
  fst (chat (Ok j) w) =
  EventStream match fst (temperature w) with
              | Raise e => [EError (str e)]
              | Ok _ => relay "" (pulls_of rest)
              end.
Proof.
  intros Hwf Hhttp. rewrite (chat_well_formed _ _ _ _ Hwf).
  unfold bindM at 1. rewrite (ollama_ok_answer _ _ _ Hhttp). cbn [negb].
  unfold bindM at 1. rewrite gen_unfold.
  set (w1 := World _ _ _ _ _ _ _).
  assert (fst (temperature w1) = fst (temperature w)) as -> by reflexivity.
  destruct (fst (temperature w)) as [temp | e]; [| reflexivity].
  cbn [fst snd ret]. rewrite stream_ollama_pulls. reflexivity.
Qed.




(** X22. With no stored temperature, or an empty one, the gateway uses the
    default 0.7. *)
Lemma temperature_default (w : world) (rows : gmap string string) :
  database w = Ok rows ->
  rows !! "temperature" = None \/ rows !! "temperature" = Some "" ->
  fst (temperature w) = Ok default_temperature.
Proof.
  intros Hdb H. unfold temperature, dbg, bindM, ret. cbn. rewrite Hdb. cbn.
  destruct H as [-> | ->]; reflexivity.
Qed.






(** C9. The stored temperature is parsed with [float], the default 0.7
    standing in for an absent or empty value only: with a stored value
    that is not a float literal, a request that passes validation and the
    health check gets the error event of the failed conversion as its
    whole stream, and the chat endpoint is not called. *)
Theorem malformed_temperature_fails_chat (j : json) (msg : string) (model : json)
    (w : world) (probe : response) (rest : list (result response))
    (rows : gmap string string) (s : string) (e : exn) :
  well_formed j msg model ->
  http w = Ok probe :: rest ->
  database w = Ok rows ->
  rows !! "temperature" = Some s ->
  s <> "" ->
  float_of_str s = Raise e ->
  fst (chat (Ok j) w) = EventStream [EError (str e)] /\
  filter (fun c => is_post c = true) (trace (snd (chat (Ok j) w))) =
  filter (fun c => is_post c = true) (trace w).
Proof.
  intros Hwf Hhttp Hdb Hrow Hne Hfloat.
  assert (forall w1, database w1 = database w -> fst (temperature w1) = Raise e) as Htemp.
  { intros w1 Hw1. unfold temperature, dbg, bindM, ret. cbn. rewrite Hw1, Hdb. cbn.
    rewrite Hrow. unfold str_truthy. apply String.eqb_neq in Hne. rewrite Hne. exact Hfloat. }
  assert (chat (Ok j) w = (EventStream [EError (str e)], snd (ollama_ok w))) as ->.
  { rewrite (chat_well_formed _ _ _ _ Hwf). unfold bindM at 1.
    rewrite (ollama_ok_answer _ _ _ Hhttp). cbn [negb snd].
    unfold bindM. rewrite gen_unfold, Htemp by reflexivity. reflexivity. }
  rewrite (ollama_ok_answer _ _ _ Hhttp).
  cbn [fst snd trace]. split; [reflexivity |].
  rewrite filter_app. cbn. apply app_nil_r.
Qed.

(** *** Health prober *)

(** A request changes nothing but the pending answers and the trace. *)
Lemma requests_get_frame (url : string) (w : world) :
  let r := requests_get url w in
  search_path (snd r) = search_path w /\ files (snd r) = files w /\
  database (snd r) = database w /\ clock (snd r) = clock w /\
  procs (snd r) = procs w /\ trace (snd r) = trace w ++ [HttpGet url].
Proof.
  unfold requests_get, next_response, record, bindM. cbn.
  destruct (http w) as [| a l]; cbn; repeat split.
Qed.

Lemma list_models_frame (w : world) :
  let r := list_models w in
  search_path (snd r) = search_path w /\ files (snd r) = files w /\
  database (snd r) = database w /\ clock (snd r) = clock w /\
  procs (snd r) = procs w /\
  trace (snd r) = trace w ++ [HttpGet (OLLAMA +:+ "/api/tags")].
Proof.
  pose proof (requests_get_frame (OLLAMA +:+ "/api/tags") w) as H.
  unfold list_models, bindM.
  destruct (requests_get (OLLAMA +:+ "/api/tags") w) as [r w1].
  cbn [fst snd] in *.
  destruct (Py.bind r _); exact H.
Qed.

(** C6. The health check never raises: it is false exactly when the
    request to the status endpoint fails (the backend cannot be reached),
    and true whenever the backend answers, whatever the status of the
    answer. *)
Theorem ollama_ok_reachability (w : world) :
  fst (ollama_ok w) =
  match http w with
  | Ok answer :: _ => true
  | _ => false
  end.
Proof.
  unfold ollama_ok, requests_get, next_response, record, bindM, ret. cbn.
  destruct (http w) as [| [answer | e] l]; reflexivity.
Qed.

(** *** Backend installer *)

(** The installer's run when the backend is not on the search path and the
    package manager is: what it does is decided by the next subprocess
    outcome alone. *)
Lemma ensure_ollama_installed_brew (w : world) (brew : string) :
  search_path w !! "ollama" = None ->
  search_path w !! "brew" = Some brew ->
  exists more,
    trace (snd (ensure_ollama_installed w)) =
    trace w ++ Run ["brew"; "install"; "ollama"] :: more /\
    files (snd (ensure_ollama_installed w)) =
    match procs w with
    | a :: _ =>
        match proc_result a with
        | Ok _ => <[OLLAMA_SETUP_FLAG := clock w]> (files w)
        | Raise _ => files w
        end
    | [] => files w
    end.
Proof.
  intros Hollama Hbrew.
  unfold ensure_ollama_installed, which, _run_logged, subprocess_run, record,
    datetime_now_isoformat, write_text, webbrowser_open, bindM, ret.
  cbn. rewrite Hollama, Hbrew. cbn.
  destruct (procs w) as [| a rest]; cbn.
  - eexists. split; [| reflexivity]. rewrite <- app_assoc. reflexivity.
  - destruct (proc_result a) as [returncode | e]; cbn.
    + destruct ((returncode =? 0) && _); cbn.
      * eexists. split; reflexivity.
      * eexists. split; [| reflexivity]. rewrite <- app_assoc. reflexivity.
    + eexists. split; [| reflexivity]. rewrite <- app_assoc. reflexivity.
Qed.

(** C1. The installer does not read its marker: with the backend missing
    from the search path and the package manager present, it starts the
    automatic install although the marker of an earlier attempt exists. *)
Theorem install_retried_despite_marker (w : world) (brew : string) :
  search_path w !! "ollama" = None ->
  search_path w !! "brew" = Some brew ->
  is_Some (files w !! OLLAMA_SETUP_FLAG) ->
  exists more,
    trace (snd (ensure_ollama_installed w)) =
    trace w ++ Run ["brew"; "install"; "ollama"] :: more.
Proof.
  intros Hollama Hbrew _.
  destruct (ensure_ollama_installed_brew w brew Hollama Hbrew) as (more & Htrace & _).
  exists more. exact Htrace.
Qed.

(** C5. The marker is written after the install subprocess returns,
    whatever its exit code, and not when the subprocess raises (it cannot
    be started, or it times out): the install has been attempted and the
    files are as they were. *)
Theorem install_marker_skipped_on_exception (w : world) (brew : string)
    (a : proc_answer) (rest : list proc_answer) (e : exn) :
  search_path w !! "ollama" = None ->
  search_path w !! "brew" = Some brew ->
  procs w = a :: rest ->
  proc_result a = Raise e ->
  (exists more,
     trace (snd (ensure_ollama_installed w)) =
     trace w ++ Run ["brew"; "install"; "ollama"] :: more) /\
  files (snd (ensure_ollama_installed w)) = files w.
Proof.
  intros Hollama Hbrew Hprocs Hraise.
  destruct (ensure_ollama_installed_brew w brew Hollama Hbrew) as (more & Htrace & Hfiles).
  rewrite Hprocs, Hraise in Hfiles. split; [exists more; exact Htrace | exact Hfiles].
Qed.

(** X6. The marker is written when the install subprocess returns, with any
    exit code. *)
Lemma install_marker_written_on_return (w : world) (brew : string)
    (a : proc_answer) (rest : list proc_answer) (returncode : Z) :
  search_path w !! "ollama" = None ->
  search_path w !! "brew" = Some brew ->
  procs w = a :: rest ->
  proc_result a = Ok returncode ->
  files (snd (ensure_ollama_installed w)) !! OLLAMA_SETUP_FLAG = Some (clock w).
Proof.
  intros Hollama Hbrew Hprocs Hok.
  destruct (ensure_ollama_installed_brew w brew Hollama Hbrew) as (more & _ & Hfiles).
  rewrite Hprocs, Hok in Hfiles. rewrite Hfiles. apply lookup_insert_eq.
Qed.

(** *** Model provisioner *)

Lemma append_assoc (a b c : string) : (a +:+ b) +:+ c = a +:+ b +:+ c.
Proof.
  induction a as [| x a IH]; [reflexivity |].
  change (String x ((a +:+ b) +:+ c) = String x (a +:+ b +:+ c)).
  f_equal. exact IH.
Qed.

(** A run that finds the marker: it asks the registry once, starts no
    subprocess and leaves the marker; with the model absent it fails with a
    diagnostic and touches no file. *)
Lemma ensure_model_ready_marked (w : world) :
  is_Some (files w !! MODEL_READY_FLAG) ->
  trace (snd (ensure_model_ready w)) = trace w ++ [HttpGet (OLLAMA +:+ "/api/tags")] /\
  is_Some (files (snd (ensure_model_ready w)) !! MODEL_READY_FLAG) /\
  (contains (fst (list_models w)) MODEL_NAME = false ->
   structured_failure (fst (ensure_model_ready w)) /\
   files (snd (ensure_model_ready w)) = files w).
Proof.
  intros [stamp Hflag].
  pose proof (list_models_frame w) as (_ & Hfiles & _ & _ & _ & Htrace).
  remember (ensure_model_ready w) as r eqn:Hr.
  unfold ensure_model_ready, bindM at 1 in Hr.
  destruct (list_models w) as [models w1]. cbn [fst snd] in *.
  destruct (contains models MODEL_NAME).
  - unfold datetime_now_isoformat, write_text, bindM, ret in Hr. subst r. cbn.
    split; [exact Htrace |]. split; [| discriminate].
    rewrite lookup_insert_eq. eauto.
  - unfold path_exists, bindM, ret in Hr. cbn in Hr. rewrite Hfiles in Hr.
    destruct (files w !! (bundled_model_dir </> "Modelfile")) as [text |]; cbn in Hr.
    + rewrite Hfiles, Hflag in Hr. subst r. cbn [fst snd].
      split; [exact Htrace |]. split; [rewrite Hfiles; eauto |].
      intros _. split; [| exact Hfiles]. split; [reflexivity |].
      exists ("モデル『" +:+ MODEL_NAME +:+ "』が未登録ですが初回自動準備は実施済みです。" +:+ nl).
      cbn [snd]. unfold log_pointer. rewrite !append_assoc. reflexivity.
    + subst r. cbn [fst snd].
      split; [exact Htrace |]. split; [rewrite Hfiles; eauto |].
      intros _. split; [| exact Hfiles]. split; [reflexivity |].
      exists ("同梱モデルが見つかりません: " +:+ (bundled_model_dir </> "Modelfile") +:+ nl).
      cbn [snd]. unfold log_pointer. rewrite !append_assoc. reflexivity.
Qed.

Lemma runs_marked (ss : list script) : forall w,
  is_Some (files w !! MODEL_READY_FLAG) ->
  Forall (fun r => started r = []) (runs ensure_model_ready ss w).
Proof.
  induction ss as [| s rest IH]; intros w Hflag; cbn [runs]; constructor.
  - unfold started.
    destruct (ensure_model_ready_marked (boot s w) Hflag) as (-> & _). reflexivity.
  - apply IH. apply (ensure_model_ready_marked (boot s w) Hflag).
Qed.

(** C4 (as amended). In a run that finds the ready marker while the model
    is absent from the registry, the provisioner returns a structured
    failure, starts no subprocess (the build command is not invoked) and
    leaves the files as they are; and whatever the later restarts meet,
    none of them starts the build either. *)
Theorem provisioning_guarded_by_marker (w : world) (ss : list script) :
  is_Some (files w !! MODEL_READY_FLAG) ->
  contains (fst (list_models w)) MODEL_NAME = false ->
  structured_failure (fst (ensure_model_ready w)) /\
  started (ensure_model_ready w) = filter (fun c => is_run c = true) (trace w) /\
  files (snd (ensure_model_ready w)) = files w /\
  Forall (fun r => started r = []) (runs ensure_model_ready ss (snd (ensure_model_ready w))).
Proof.
  intros Hflag Habsent.
  destruct (ensure_model_ready_marked w Hflag) as (Htrace & Hflag' & Hfail).
  destruct (Hfail Habsent) as [Hstruct Hfiles].
  split; [exact Hstruct |]. split; [| split; [exact Hfiles | apply runs_marked, Hflag']].
  unfold started. rewrite Htrace, filter_app. cbn. apply app_nil_r.
Qed.

(** X19. A build that fails leaves no marker: the files are as they were. *)
Lemma failed_build_leaves_no_marker (w : world) (text : string)
    (a : proc_answer) (rest : list proc_answer) :
  contains (fst (list_models w)) MODEL_NAME = false ->
  files w !! (bundled_model_dir </> "Modelfile") = Some text ->
  files w !! MODEL_READY_FLAG = None ->
  procs w = a :: rest ->
  (forall returncode, proc_result a = Ok returncode -> returncode <> 0) ->
  fst (fst (ensure_model_ready w)) = false /\
  files (snd (ensure_model_ready w)) = files w /\
  started (ensure_model_ready w) =
  filter (fun c => is_run c = true) (trace w)
  ++ [Run ["ollama"; "create"; MODEL_NAME; "-f"; bundled_model_dir </> "Modelfile"]].
Proof.
  intros Habsent Hbundled Hflag Hprocs Hfails.
  pose proof (list_models_frame w) as (_ & Hfiles & _ & _ & Hp & Htrace).
  unfold started. remember (ensure_model_ready w) as r eqn:Hr.
  unfold ensure_model_ready, bindM at 1 in Hr.
  destruct (list_models w) as [models w1]. cbn [fst snd] in *. rewrite Habsent in Hr.
  unfold path_exists, _run_logged, subprocess_run, record, bindM, ret in Hr. cbn in Hr.
  do 3 (rewrite ?Hfiles, ?Hbundled, ?Hflag, ?Hp, ?Hprocs, ?Htrace in Hr; cbn in Hr).
  destruct (proc_result a) as [returncode | e] eqn:E; cbn in Hr.
  - specialize (Hfails returncode eq_refl). apply Z.eqb_neq in Hfails.
    rewrite Hfails in Hr. subst r. cbn.
    repeat split; try assumption. rewrite !filter_app. cbn. rewrite app_nil_r. reflexivity.
  - subst r. cbn.
    repeat split; try assumption. rewrite !filter_app. cbn. rewrite app_nil_r. reflexivity.
Qed.

(** X28. A request that is answered neither with the stream nor with the 503
    error has sent nothing: the world is as it was. *)
Lemma rejected_request_sends_nothing (request_json : result json) (w : world) :
  reply_status (fst (chat request_json w)) <> 200 ->
  reply_status (fst (chat request_json w)) <> 503 ->
  snd (chat request_json w) = w.
Proof.
  unfold chat. destruct request_json as [j | e]; [| reflexivity].
  destruct (Py.bind _ strip_of) as [msg | e]; [| reflexivity].
  destruct (get _ "model" _) as [model | e]; [| reflexivity].
  destruct (negb _); [reflexivity |].
  unfold bindM. destruct (ollama_ok w) as [[|] w1]; cbn [negb].
  - destruct (gen model msg w1). cbn. intros H. exfalso. apply H. reflexivity.
  - intros _ H. exfalso. apply H. reflexivity.
Qed.

(** *** The registry listing *)

Lemma names_of_entries (names : list string) :
  names_of (map entry names) = Ok (map JStr names).
Proof.
  induction names as [| n names IH]; [reflexivity |].
  cbn [map names_of]. rewrite IH. reflexivity.
Qed.

Lemma names_of_raises (ms : list json) (m : json) (e : exn) :
  In m ms -> name_of m = Raise e -> exists e', names_of ms = Raise e'.
Proof.
  induction ms as [| m' ms IH]; intros Hin Hm; [destruct Hin |].
  cbn [names_of]. destruct Hin as [-> | Hin].
  - rewrite Hm. eexists. reflexivity.
  - destruct (name_of m') as [n | e0]; [| eexists; reflexivity].
    destruct (IH Hin Hm) as [e' ->]. eexists. reflexivity.
Qed.

Lemma contains_names (names : list string) (x : string) :
  contains (map JStr names) x = true <-> In x names.
Proof.
  unfold contains. rewrite existsb_exists. split.
  - intros (j & Hin & Hj). apply in_map_iff in Hin as (n & <- & Hn).
    apply String.eqb_eq in Hj. subst. exact Hn.
  - intros Hin. exists (JStr x). split; [apply in_map, Hin | apply String.eqb_refl].
Qed.

(** What [list_models] returns, by the answer it gets. *)
Lemma list_models_value (w : world) :
  fst (list_models w) =
  match http w with
  | Ok resp :: _ =>
      match Py.bind (json_body resp) (fun body =>
            Py.bind (get body "models" (JArr [])) comprehension) with
      | Ok names => names
      | Raise _ => []
      end
  | _ => []
  end.
Proof.
  unfold list_models, requests_get, next_response, record, bindM, ret. cbn.
  destruct (http w) as [| [resp | e] rest]; cbn; try reflexivity.
  destruct (Py.bind (json_body resp) _); reflexivity.
Qed.

(** X1. When the status endpoint answers with a listing of models, whatever
    the HTTP status of the answer, [list_models] returns their names in the
    order listed, and the presence test used by the provisioner holds
    exactly for the listed names. *)
Theorem list_models_lists_names (w : world) (resp : response)
    (rest : list (result response)) (names : list string) :
  http w = Ok resp :: rest ->
  json_body resp = Ok (listing names) ->
  fst (list_models w) = map JStr names /\
  forall x, contains (fst (list_models w)) x = true <-> In x names.
Proof.
  intros Hhttp Hbody.
  assert (fst (list_models w) = map JStr names) as ->.
  { rewrite list_models_value, Hhttp, Hbody. cbn. rewrite names_of_entries. reflexivity. }
  split; [reflexivity | intros x; apply contains_names].
Qed.

(** X2. One entry of the listing without a name (or that is not an object)
    makes [list_models] return the empty list: the other names are lost
    with it. *)
Theorem list_models_discards_malformed (w : world) (resp : response)
    (rest : list (result response)) (fields : list (string * json))
    (ms : list json) (m : json) (e : exn) :
  http w = Ok resp :: rest ->
  json_body resp = Ok (JObj fields) ->
  assoc "models" fields = Some (JArr ms) ->
  In m ms ->
  name_of m = Raise e ->
  fst (list_models w) = [].
Proof.
  intros Hhttp Hbody Hmodels Hin Hm.
  rewrite list_models_value, Hhttp, Hbody. cbn. rewrite Hmodels. cbn.
  destruct (names_of_raises _ _ _ Hin Hm) as [e' ->]. reflexivity.
Qed.

(** *** The installer, case by case *)

Lemma installer_message_structured :
  carries_log_pointer
    ("Ollama が見つかりません。初回セットアップを試みましたが完了できませんでした。" +:+ nl
     +:+ "ブラウザでインストーラを開いてください: " +:+ installer_url +:+ nl
     +:+ "ログ保存先: " +:+ STARTUP_LOG_PATH).
Proof.
  exists ("Ollama が見つかりません。初回セットアップを試みましたが完了できませんでした。" +:+ nl
          +:+ "ブラウザでインストーラを開いてください: " +:+ installer_url +:+ nl).
  unfold log_pointer. rewrite !append_assoc. reflexivity.
Qed.

(** What a run of the installer leaves: the backend's pending answers, the
    database and the clock are untouched; its trace grows by at most one
    subprocess and no request; a success puts the backend on the search
    path and opens no browser; a failure ends on the opening of the
    download page and carries the diagnostic. *)
Lemma installer_cases (w : world) :
  (http (snd (ensure_ollama_installed w)) = http w /\
   database (snd (ensure_ollama_installed w)) = database w /\
   clock (snd (ensure_ollama_installed w)) = clock w) /\
  exists more,
    trace (snd (ensure_ollama_installed w)) = trace w ++ more /\
    probes more = 0%nat /\ posted more = 0%nat /\ (spawned more <= 1)%nat /\
    match fst (fst (ensure_ollama_installed w)) with
    | true =>
        is_Some (search_path (snd (ensure_ollama_installed w)) !! "ollama") /\
        snd (fst (ensure_ollama_installed w)) = "" /\
        filter (fun c => is_browser c = true) more = []
    | false =>
        structured_failure (fst (ensure_ollama_installed w)) /\
        last more = Some (BrowserOpen installer_url)
    end.
Proof.
  remember (ensure_ollama_installed w) as r eqn:Hr.
  unfold ensure_ollama_installed, which, _run_logged, subprocess_run, record,
    datetime_now_isoformat, write_text, webbrowser_open, bindM, ret in Hr.
  cbn in Hr.
  assert (forall more : list call,
            spawned more = length (filter (fun c => is_run c = true) more)) as Hsp
    by reflexivity.
  destruct (search_path w !! "ollama") as [bin |] eqn:Hbin.
  { subst r. cbn [fst snd http database clock trace search_path].
    split; [repeat split |]. exists []. rewrite app_nil_r, Hbin.
    split; [reflexivity |]. split; [reflexivity |]. split; [reflexivity |].
    split; [vm_compute; lia |]. repeat split. eauto. }
  destruct (search_path w !! "brew") as [brew |]; cbn in Hr.
  - destruct (procs w) as [| a rest]; cbn in Hr.
    + subst r. cbn [fst snd http database clock trace search_path].
      split; [repeat split |]. eexists [_; _]. rewrite <- app_assoc.
      split; [reflexivity |]. split; [reflexivity |]. split; [reflexivity |].
      split; [vm_compute; lia |]. split; [| reflexivity].
      split; [reflexivity | apply installer_message_structured].
    + destruct (proc_result a) as [returncode | e]; cbn in Hr.
      * destruct ((returncode =? 0) && _) eqn:Hinst; cbn in Hr; subst r;
          cbn [fst snd http database clock trace search_path].
        -- split; [repeat split |]. eexists [_].
           split; [reflexivity |]. split; [reflexivity |]. split; [reflexivity |].
           split; [vm_compute; lia |]. split; [| split; reflexivity].
           apply andb_true_iff in Hinst as [_ Hfound].
           match type of Hfound with
           | match ?found with _ => _ end = true =>
               destruct found as [bin |] eqn:Hnow; [| discriminate]
           end.
           eauto.
        -- split; [repeat split |]. eexists [_; _]. rewrite <- app_assoc.
           split; [reflexivity |]. split; [reflexivity |]. split; [reflexivity |].
           split; [vm_compute; lia |]. split; [| reflexivity].
           split; [reflexivity | apply installer_message_structured].
      * subst r. cbn [fst snd http database clock trace search_path].
        split; [repeat split |]. eexists [_; _]. rewrite <- app_assoc.
        split; [reflexivity |]. split; [reflexivity |]. split; [reflexivity |].
        split; [vm_compute; lia |]. split; [| reflexivity].
        split; [reflexivity | apply installer_message_structured].
  - subst r. cbn [fst snd http database clock trace search_path].
    split; [repeat split |]. eexists [_].
    split; [reflexivity |]. split; [reflexivity |]. split; [reflexivity |].
    split; [vm_compute; lia |]. split; [| reflexivity].
    split; [reflexivity | apply installer_message_structured].
Qed.

(** *** Counting in traces, and running programs step by step *)

Lemma bindM_eq {A B} (m : M A) (k : A -> M B) (w : world) :
  bindM m k w = k (fst (m w)) (snd (m w)).
Proof. unfold bindM. destruct (m w). reflexivity. Qed.

Lemma probes_app (a b : list call) : probes (a ++ b) = (probes a + probes b)%nat.
Proof. unfold probes. rewrite filter_app. apply length_app. Qed.

Lemma spawned_app (a b : list call) : spawned (a ++ b) = (spawned a + spawned b)%nat.
Proof. unfold spawned. rewrite filter_app. apply length_app. Qed.

Lemma posted_app (a b : list call) : posted (a ++ b) = (posted a + posted b)%nat.
Proof. unfold posted. rewrite filter_app. apply length_app. Qed.

Lemma counts_of_probes (k : nat) :
  probes (replicate k (HttpGet (OLLAMA +:+ "/api/tags"))) = k /\
  spawned (replicate k (HttpGet (OLLAMA +:+ "/api/tags"))) = 0%nat /\
  posted (replicate k (HttpGet (OLLAMA +:+ "/api/tags"))) = 0%nat.
Proof.
  induction k as [| k (IHp & IHs & IHo)]; [repeat split |].
  change (replicate (S k) ?x) with ([x] ++ replicate k x).
  rewrite probes_app, spawned_app, posted_app, IHp, IHs, IHo. repeat split.
Qed.

Lemma unreachable_tail (answers : list (result response)) :
  unreachable answers -> unreachable (tail answers).
Proof. intros H. destruct H; [constructor | assumption]. Qed.

Lemma unreachable_lookup (answers : list (result response)) (i : nat) (resp : response) :
  answers !! i = Some (Ok resp) -> ~ unreachable answers.
Proof.
  intros Hi Hun. unfold unreachable in Hun. rewrite Forall_lookup in Hun.
  exact (Hun i _ Hi).
Qed.

(** *** Health probes *)

Lemma ollama_ok_full (w : world) :
  ollama_ok w =
  (match http w with Ok _ :: _ => true | _ => false end,
   World (search_path w) (files w) (database w) (clock w) (tail (http w)) (procs w)
         (trace w ++ [HttpGet (OLLAMA +:+ "/api/tags")])).
Proof.
  unfold ollama_ok, requests_get, next_response, record, bindM, ret. cbn.
  destruct (http w) as [| [resp | e] rest]; reflexivity.
Qed.

(** The polling loop: it touches nothing but the pending answers and the
    trace, probes between one and [n] times (never, for [n = 0]), stops at
    the first answer, and gives up after [n] failures. *)
Lemma wait_ollama_cases (n : nat) : forall w,
  (search_path (snd (wait_ollama n w)) = search_path w /\
   files (snd (wait_ollama n w)) = files w /\
   database (snd (wait_ollama n w)) = database w /\
   clock (snd (wait_ollama n w)) = clock w /\
   procs (snd (wait_ollama n w)) = procs w) /\
  exists k,
    (k <= n)%nat /\
    trace (snd (wait_ollama n w)) = trace w ++ replicate k (HttpGet (OLLAMA +:+ "/api/tags")) /\
    match fst (wait_ollama n w) with
    | true => exists i resp, http w !! i = Some (Ok resp)
    | false => k = n
    end.
Proof.
  induction n as [| n IH]; intros w.
  - change (wait_ollama 0 w) with (false, w). cbn [fst snd].
    split; [repeat split |]. exists 0%nat.
    split; [lia |]. split; [cbn; rewrite app_nil_r; reflexivity | reflexivity].
  - cbn [wait_ollama]. rewrite bindM_eq, ollama_ok_full. cbn [fst snd].
    destruct (http w) as [| [resp | e] rest] eqn:Hhttp.
    + match goal with |- context [wait_ollama n ?w1] => specialize (IH w1) end.
      destruct IH as ((H1 & H2 & H3 & H4 & H5) & k & Hk & Htrace & Hres).
      cbn [search_path files database clock procs trace http tail] in *.
      split; [repeat split; assumption |].
      exists (S k). split; [lia |]. split.
      * rewrite Htrace, <- app_assoc. reflexivity.
      * destruct (fst (wait_ollama n _)); [| lia].
        destruct Hres as (i & resp & Hi). destruct i; discriminate.
    + split; [repeat split |]. exists 1%nat. split; [lia |]. split; [reflexivity |].
      exists 0%nat, resp. reflexivity.
    + match goal with |- context [wait_ollama n ?w1] => specialize (IH w1) end.
      destruct IH as ((H1 & H2 & H3 & H4 & H5) & k & Hk & Htrace & Hres).
      cbn [search_path files database clock procs trace http tail] in *.
      split; [repeat split; assumption |].
      exists (S k). split; [lia |]. split.
      * rewrite Htrace, <- app_assoc. reflexivity.
      * destruct (fst (wait_ollama n _)); [| lia].
        destruct Hres as (i & resp & Hi). exists (S i), resp. exact Hi.
Qed.

Lemma subprocess_run_frame (cmd : list string) (w : world) :
  files (snd (subprocess_run cmd w)) = files w /\
  database (snd (subprocess_run cmd w)) = database w /\
  clock (snd (subprocess_run cmd w)) = clock w /\
  http (snd (subprocess_run cmd w)) = http w /\
  trace (snd (subprocess_run cmd w)) = trace w ++ [Run cmd] /\
  fst (subprocess_run cmd w) =
  match procs w with a :: _ => proc_result a | [] => Raise OSError end.
Proof.
  unfold subprocess_run, record, bindM. cbn.
  destruct (procs w) as [| a rest]; cbn; repeat split.
Qed.

(** *** The launcher, case by case

    A run of the launcher leaves the database and the clock alone; it
    probes the backend at least once and at most [1 + retry_seconds] times,
    starts at most two subprocesses and posts nothing; when it succeeds its
    message is empty and the backend has answered a probe; when it fails
    its message carries the log pointer. *)
Lemma launcher_cases (n : nat) (w : world) :
  (database (snd (ensure_ollama_running n w)) = database w /\
   clock (snd (ensure_ollama_running n w)) = clock w) /\
  exists more,
    trace (snd (ensure_ollama_running n w)) = trace w ++ more /\
    (1 <= probes more <= 1 + n)%nat /\ posted more = 0%nat /\ (spawned more <= 2)%nat /\
    match fst (fst (ensure_ollama_running n w)) with
    | true => snd (fst (ensure_ollama_running n w)) = "" /\ ~ unreachable (http w)
    | false => structured_failure (fst (ensure_ollama_running n w))
    end.
Proof.
  remember (ensure_ollama_running n w) as r eqn:Hr.
  unfold ensure_ollama_running in Hr. rewrite bindM_eq, ollama_ok_full in Hr.
  cbn [fst snd] in Hr.
  set (w1 := World _ _ _ _ _ _ _) in Hr.
  assert (probes [HttpGet (OLLAMA +:+ "/api/tags")] = 1%nat /\
          spawned [HttpGet (OLLAMA +:+ "/api/tags")] = 0%nat /\
          posted [HttpGet (OLLAMA +:+ "/api/tags")] = 0%nat) as (Hp1 & Hs1 & Ho1)
    by (repeat split).
  destruct (match http w with Ok _ :: _ => true | _ => false end) eqn:Hfirst.
  { subst r. cbn [ret fst snd database clock trace w1].
    split; [repeat split |]. eexists. split; [reflexivity |].
    rewrite Hp1, Ho1, Hs1. split; [lia |]. split; [reflexivity |]. split; [lia |].
    split; [reflexivity |].
    intros Hun. destruct Hun as [| [resp | e] rest Ha _]; [discriminate | exact Ha | discriminate]. }
  rewrite bindM_eq in Hr.
  change (which "ollama" w1) with (search_path w1 !! "ollama", w1) in Hr.
  cbn [fst snd] in Hr. rewrite bindM_eq in Hr.
  (* the world in which the backend has been located, or the diagnostic *)
  match type of Hr with
  | r = ?k (snd ?loc) =>
      assert ((database (snd loc) = database w /\ clock (snd loc) = clock w /\
               http (snd loc) = tail (http w)) /\
              exists mid,
                trace (snd loc) = trace w1 ++ mid /\
                probes mid = 0%nat /\ posted mid = 0%nat /\ (spawned mid <= 1)%nat /\
                match fst loc with
                | inl _ => True
                | inr err => carries_log_pointer err
                end) as Hloc
  end.
  { destruct (search_path w1 !! "ollama") as [bin |] eqn:Hbin.
    - cbn [ret fst snd]. split; [repeat split |]. exists [].
      rewrite app_nil_r. repeat split. vm_compute. lia.
    - rewrite bindM_eq.
      destruct (installer_cases w1) as ((Hh & Hd & Hc) & mid & Htr & Hp & Ho & Hs & Hres).
      destruct (ensure_ollama_installed w1) as [[ok msg] w2]. cbn [fst snd] in *.
      unfold w1 in Hh, Hd, Hc. cbn [http database clock] in Hh, Hd, Hc.
      destruct ok.
      + rewrite bindM_eq.
        change (which "ollama" w2) with (search_path w2 !! "ollama", w2). cbn [fst snd].
        destruct (search_path w2 !! "ollama"); cbn [ret fst snd].
        * split; [repeat split; assumption |]. exists mid. repeat split; assumption.
        * split; [repeat split; assumption |]. exists mid.
          split; [assumption |]. split; [assumption |]. split; [assumption |].
          split; [assumption |].
          exists ("Ollama インストール後もコマンドが見つかりません。" +:+ nl).
          unfold log_pointer. rewrite !append_assoc. reflexivity.
      + cbn [ret fst snd].
        split; [repeat split; assumption |]. exists mid.
        split; [assumption |]. split; [assumption |]. split; [assumption |].
        split; [assumption |]. apply Hres. }
  destruct Hloc as ((Hd & Hc & Hh) & mid & Htr & Hp & Ho & Hs & Hres).
  match type of Hr with
  | r = ?k (snd ?loc) => destruct loc as [located w2]
  end.
  cbn [fst snd] in *. cbn [trace w1] in Htr.
  destruct located as [bin | err].
  - rewrite bindM_eq in Hr.
    destruct (subprocess_run_frame [bin; "serve"] w2) as (_ & Hd3 & Hc3 & Hh3 & Htr3 & Hres3).
    destruct (subprocess_run [bin; "serve"] w2) as [p w3]. cbn [fst snd] in *.
    assert (spawned [Run [bin; "serve"]] = 1%nat /\ probes [Run [bin; "serve"]] = 0%nat /\
            posted [Run [bin; "serve"]] = 0%nat) as (Hs3 & Hp3 & Ho3) by (repeat split).
    destruct p as [pid | e].
    + rewrite bindM_eq in Hr.
      destruct (wait_ollama_cases n w3) as ((_ & _ & Hd4 & Hc4 & _) & k & Hk & Htr4 & Hres4).
      destruct (counts_of_probes k) as (Hpk & Hsk & Hok).
      destruct (wait_ollama n w3) as [ok w4]. cbn [fst snd] in *.
      assert (trace w4 =
              trace w ++ [HttpGet (OLLAMA +:+ "/api/tags")] ++ mid ++ [Run [bin; "serve"]]
              ++ replicate k (HttpGet (OLLAMA +:+ "/api/tags"))) as Htrace.
      { rewrite Htr4, Htr3, Htr, <- !app_assoc. reflexivity. }
      assert ((1 <= probes ([HttpGet (OLLAMA +:+ "/api/tags")] ++ mid ++ [Run [bin; "serve"]]
                 ++ replicate k (HttpGet (OLLAMA +:+ "/api/tags"))) <= 1 + n)%nat /\
              posted ([HttpGet (OLLAMA +:+ "/api/tags")] ++ mid ++ [Run [bin; "serve"]]
                 ++ replicate k (HttpGet (OLLAMA +:+ "/api/tags"))) = 0%nat /\
              (spawned ([HttpGet (OLLAMA +:+ "/api/tags")] ++ mid ++ [Run [bin; "serve"]]
                 ++ replicate k (HttpGet (OLLAMA +:+ "/api/tags"))) <= 2)%nat) as Hcounts.
      { rewrite !probes_app, !posted_app, !spawned_app.
        rewrite Hp1, Ho1, Hs1, Hp, Ho, Hs3, Hp3, Ho3, Hpk, Hsk, Hok. lia. }
      destruct Hcounts as (Hcp & Hco & Hcs).
      destruct ok; subst r; cbn [ret fst snd].
      * split; [split; congruence |]. eexists. split; [exact Htrace |].
        split; [exact Hcp |]. split; [exact Hco |]. split; [exact Hcs |].
        split; [reflexivity |].
        destruct Hres4 as (i & resp & Hi). rewrite Hh3, Hh in Hi.
        intros Hun. exact (unreachable_lookup _ _ _ Hi (unreachable_tail _ Hun)).
      * split; [split; congruence |]. eexists. split; [exact Htrace |].
        split; [exact Hcp |]. split; [exact Hco |]. split; [exact Hcs |].
        split; [reflexivity |].
        exists ("Ollama 起動待ちがタイムアウトしました。" +:+ nl).
        unfold log_pointer. rewrite !append_assoc. reflexivity.
    + subst r. cbn [ret fst snd].
      split; [split; congruence |].
      exists ([HttpGet (OLLAMA +:+ "/api/tags")] ++ mid ++ [Run [bin; "serve"]]).
      split; [rewrite Htr3, Htr, <- !app_assoc; reflexivity |].
      rewrite !probes_app, !posted_app, !spawned_app.
      rewrite Hp1, Ho1, Hs1, Hp, Ho, Hs3, Hp3, Ho3.
      split; [lia |]. split; [lia |]. split; [lia |].
      split; [reflexivity |].
      exists ("Ollama の自動起動に失敗しました: " +:+ str e +:+ nl).
      unfold log_pointer. cbn [snd]. rewrite !append_assoc. reflexivity.
  - subst r. cbn [ret fst snd].
    split; [split; congruence |].
    exists ([HttpGet (OLLAMA +:+ "/api/tags")] ++ mid).
    split; [rewrite Htr, <- !app_assoc; reflexivity |].
    rewrite !probes_app, !posted_app, !spawned_app, Hp1, Ho1, Hs1, Hp, Ho.
    split; [lia |]. split; [lia |]. split; [lia |].
    split; [reflexivity | exact Hres].
Qed.

Lemma carries_here : carries_log_pointer log_pointer.
Proof. exists "". reflexivity. Qed.

Lemma carries_after (a m : string) : carries_log_pointer m -> carries_log_pointer (a +:+ m).
Proof. intros [text ->]. exists (a +:+ text). symmetry. apply append_assoc. Qed.

Ltac log_pointed := cbn [snd]; repeat first [apply carries_here | apply carries_after].

Lemma path_exists_eq (p : string) (w : world) :
  path_exists p w = (match files w !! p with Some _ => true | None => false end, w).
Proof. reflexivity. Qed.

Lemma list_models_http (w : world) : http (snd (list_models w)) = tail (http w).
Proof.
  unfold list_models, requests_get, next_response, record, bindM, ret. cbn.
  destruct (http w) as [| a rest]; cbn.
  - reflexivity.
  - destruct (Py.bind a _); reflexivity.
Qed.

Lemma list_models_answered (w : world) (x : string) :
  contains (fst (list_models w)) x = true -> exists resp rest, http w = Ok resp :: rest.
Proof.
  rewrite list_models_value.
  destruct (http w) as [| [resp | e] rest]; try discriminate. eauto.
Qed.

(** *** The provisioner, case by case

    A run of the provisioner leaves the database and the clock alone and
    touches no file but the ready marker; it asks the registry once or
    twice, starts at most one subprocess and posts nothing; when it
    succeeds its message is empty, the marker holds the time of the run and
    the registry has answered; when it fails its message carries the log
    pointer and the files are as they were. *)
Lemma provisioner_cases (w : world) :
  (database (snd (ensure_model_ready w)) = database w /\
   clock (snd (ensure_model_ready w)) = clock w /\
   forall p, p <> MODEL_READY_FLAG ->
             files (snd (ensure_model_ready w)) !! p = files w !! p) /\
  exists more,
    trace (snd (ensure_model_ready w)) = trace w ++ more /\
    (1 <= probes more <= 2)%nat /\ posted more = 0%nat /\ (spawned more <= 1)%nat /\
    match fst (fst (ensure_model_ready w)) with
    | true =>
        snd (fst (ensure_model_ready w)) = "" /\
        files (snd (ensure_model_ready w)) !! MODEL_READY_FLAG = Some (clock w) /\
        ~ unreachable (http w)
    | false =>
        structured_failure (fst (ensure_model_ready w)) /\
        files (snd (ensure_model_ready w)) = files w
    end.
Proof.
  remember (ensure_model_ready w) as r eqn:Hr.
  unfold ensure_model_ready in Hr. rewrite bindM_eq in Hr.
  destruct (list_models_frame w) as (_ & Hf1 & Hd1 & Hc1 & Hpr1 & Htr1).
  pose proof (list_models_http w) as Hh1.
  pose proof (list_models_answered w MODEL_NAME) as Hans1.
  destruct (list_models w) as [models w1]. cbn [fst snd] in *.
  assert (probes [HttpGet (OLLAMA +:+ "/api/tags")] = 1%nat /\
          spawned [HttpGet (OLLAMA +:+ "/api/tags")] = 0%nat /\
          posted [HttpGet (OLLAMA +:+ "/api/tags")] = 0%nat) as (Hp1 & Hs1 & Ho1)
    by (repeat split).
  destruct (contains models MODEL_NAME) eqn:Hlisted.
  { unfold datetime_now_isoformat, write_text, bindM, ret in Hr. subst r.
    cbn [fst snd database clock files trace].
    split; [split; [exact Hd1 | split; [exact Hc1 |]] |].
    { intros p Hp. rewrite lookup_insert_ne by congruence. rewrite Hf1. reflexivity. }
    eexists. split; [exact Htr1 |]. rewrite Hp1, Hs1, Ho1.
    split; [lia |]. split; [reflexivity |]. split; [lia |].
    split; [reflexivity |]. split; [rewrite lookup_insert_eq, Hc1; reflexivity |].
    destruct (Hans1 eq_refl) as (resp & rest & Hw). rewrite Hw.
    intros Hun. inversion Hun as [| a l Ha]. exact Ha. }
  clear Hans1.
  rewrite bindM_eq in Hr. rewrite !path_exists_eq in Hr. cbn [fst snd] in Hr.
  rewrite Hf1 in Hr.
  destruct (files w !! (bundled_model_dir </> "Modelfile")) as [text |]; cbn [negb] in Hr.
  2: { subst r. cbn [ret fst snd].
       split; [split; [exact Hd1 | split; [exact Hc1 |]] |].
       { intros p _. rewrite Hf1. reflexivity. }
       eexists. split; [exact Htr1 |]. rewrite Hp1, Hs1, Ho1.
       split; [lia |]. split; [reflexivity |]. split; [lia |].
       split; [| exact Hf1]. split; [reflexivity |].
       log_pointed. }
  rewrite bindM_eq in Hr. rewrite !path_exists_eq in Hr. cbn [fst snd] in Hr.
  rewrite Hf1 in Hr.
  destruct (files w !! MODEL_READY_FLAG) as [mark |].
  { subst r. cbn [ret fst snd].
    split; [split; [exact Hd1 | split; [exact Hc1 |]] |].
    { intros p _. rewrite Hf1. reflexivity. }
    eexists. split; [exact Htr1 |]. rewrite Hp1, Hs1, Ho1.
    split; [lia |]. split; [reflexivity |]. split; [lia |].
    split; [| exact Hf1]. split; [reflexivity |].
    log_pointed. }
  rewrite bindM_eq in Hr. unfold _run_logged in Hr.
  match type of Hr with context [subprocess_run ?cmd w1] =>
    destruct (subprocess_run_frame cmd w1) as (Hf2 & Hd2 & Hc2 & Hh2 & Htr2 & _);
    assert (spawned [Run cmd] = 1%nat /\ probes [Run cmd] = 0%nat /\ posted [Run cmd] = 0%nat)
      as (Hs2 & Hp2 & Ho2) by (repeat split);
    destruct (subprocess_run cmd w1) as [p w2]
  end.
  cbn [fst snd] in *.
  destruct p as [returncode | e].
  2: { subst r. cbn [ret fst snd].
       split; [split; [congruence | split; [congruence |]] |].
       { intros p _. rewrite Hf2, Hf1. reflexivity. }
       eexists. split; [rewrite Htr2, Htr1, <- app_assoc; reflexivity |].
       rewrite probes_app, posted_app, spawned_app, Hp1, Hs1, Ho1, Hp2, Hs2, Ho2.
       split; [lia |]. split; [reflexivity |]. split; [lia |].
       split; [| congruence]. split; [reflexivity |].
       log_pointed. }
  destruct (negb (returncode =? 0)).
  { subst r. cbn [ret fst snd].
    split; [split; [congruence | split; [congruence |]] |].
    { intros p _. rewrite Hf2, Hf1. reflexivity. }
    eexists. split; [rewrite Htr2, Htr1, <- app_assoc; reflexivity |].
    rewrite probes_app, posted_app, spawned_app, Hp1, Hs1, Ho1, Hp2, Hs2, Ho2.
    split; [lia |]. split; [reflexivity |]. split; [lia |].
    split; [| congruence]. split; [reflexivity |]. log_pointed. }
  rewrite bindM_eq in Hr.
  destruct (list_models_frame w2) as (_ & Hf3 & Hd3 & Hc3 & _ & Htr3).
  pose proof (list_models_answered w2 MODEL_NAME) as Hans3.
  destruct (list_models w2) as [models' w3]. cbn [fst snd] in *.
  assert (trace w3 = trace w ++ [HttpGet (OLLAMA +:+ "/api/tags")]
            ++ [Run ["ollama"; "create"; MODEL_NAME; "-f"; bundled_model_dir </> "Modelfile"]]
            ++ [HttpGet (OLLAMA +:+ "/api/tags")]) as Htrace
    by (rewrite Htr3, Htr2, Htr1, <- !app_assoc; reflexivity).
  destruct (contains models' MODEL_NAME) eqn:Hlisted'.
  - unfold datetime_now_isoformat, write_text, bindM, ret in Hr. subst r.
    cbn [fst snd database clock files trace].
    split; [split; [congruence | split; [congruence |]] |].
    { intros p Hp. rewrite lookup_insert_ne by congruence. rewrite Hf3, Hf2, Hf1. reflexivity. }
    eexists. split; [exact Htrace |].
    rewrite !probes_app, !posted_app, !spawned_app, Hp1, Hs1, Ho1, Hp2, Hs2, Ho2.
    split; [lia |]. split; [reflexivity |]. split; [lia |].
    split; [reflexivity |]. split; [rewrite lookup_insert_eq; f_equal; congruence |].
    destruct (Hans3 eq_refl) as (resp & rest & Hw). rewrite Hh2, Hh1 in Hw.
    intros Hun. apply unreachable_tail in Hun. rewrite Hw in Hun.
    inversion Hun as [| a l Ha]. exact Ha.
  - subst r. cbn [ret fst snd].
    split; [split; [congruence | split; [congruence |]] |].
    { intros p _. rewrite Hf3, Hf2, Hf1. reflexivity. }
    eexists. split; [exact Htrace |].
    rewrite !probes_app, !posted_app, !spawned_app, Hp1, Hs1, Ho1, Hp2, Hs2, Ho2.
    split; [lia |]. split; [reflexivity |]. split; [lia |].
    split; [| congruence]. split; [reflexivity |]. log_pointed.
Qed.

Lemma list_models_listed (w : world) :
  fst (list_models w) = match http w with a :: _ => listed a | [] => [] end.
Proof.
  rewrite list_models_value. unfold listed.
  destruct (http w) as [| [resp | e] rest]; reflexivity.
Qed.

(** *** Backend installer: further properties *)

(** X3. With neither the backend nor the package manager on the search
    path, the installer starts no subprocess and writes no marker: it opens
    the download page and returns a failure that carries the log pointer. *)
Theorem installer_without_package_manager (w : world) :
  search_path w !! "ollama" = None ->
  search_path w !! "brew" = None ->
  structured_failure (fst (ensure_ollama_installed w)) /\
  trace (snd (ensure_ollama_installed w)) = trace w ++ [BrowserOpen installer_url] /\
  files (snd (ensure_ollama_installed w)) = files w /\
  search_path (snd (ensure_ollama_installed w)) = search_path w.
Proof.
  intros Hbin Hbrew.
  unfold ensure_ollama_installed, which, webbrowser_open, record, bindM, ret. cbn.
  rewrite Hbin, Hbrew. cbn. repeat split. apply installer_message_structured.
Qed.

(** X4. The installer reports success only with the backend on the search
    path, with an empty message and without opening the browser; every
    failure opens the download page as its last action and carries the log
    pointer. *)
Theorem installer_outcome (w : world) :
  exists more,
    trace (snd (ensure_ollama_installed w)) = trace w ++ more /\
    match fst (fst (ensure_ollama_installed w)) with
    | true =>
        is_Some (search_path (snd (ensure_ollama_installed w)) !! "ollama") /\
        snd (fst (ensure_ollama_installed w)) = "" /\
        filter (fun c => is_browser c = true) more = []
    | false =>
        structured_failure (fst (ensure_ollama_installed w)) /\
        last more = Some (BrowserOpen installer_url)
    end.
Proof.
  destruct (installer_cases w) as (_ & more & Htrace & _ & _ & _ & Hres).
  exists more. split; assumption.
Qed.

(** X5. The installer never contacts the backend and starts at most one
    subprocess; the backend's pending answers, the database and the clock
    are as before. *)
Theorem installer_footprint (w : world) :
  probes (trace (snd (ensure_ollama_installed w))) = probes (trace w) /\
  posted (trace (snd (ensure_ollama_installed w))) = posted (trace w) /\
  (spawned (trace (snd (ensure_ollama_installed w))) <= spawned (trace w) + 1)%nat /\
  http (snd (ensure_ollama_installed w)) = http w /\
  database (snd (ensure_ollama_installed w)) = database w /\
  clock (snd (ensure_ollama_installed w)) = clock w.
Proof.
  destruct (installer_cases w) as ((Hh & Hd & Hc) & more & -> & Hp & Ho & Hs & _).
  rewrite probes_app, posted_app, spawned_app, Hp, Ho.
  repeat split; try assumption; lia.
Qed.

(** *** Backend launcher *)

(** X7. When the backend answers the first probe, the launcher succeeds
    with that one request alone: it does not look for the executable,
    installs nothing and starts nothing, whatever the search path holds. *)
Theorem launcher_fast_path (n : nat) (w : world) (resp : response)
    (rest : list (result response)) :
  http w = Ok resp :: rest ->
  ensure_ollama_running n w =
  (true, "",
   World (search_path w) (files w) (database w) (clock w) rest (procs w)
         (trace w ++ [HttpGet (OLLAMA +:+ "/api/tags")])).
Proof.
  intros Hhttp. unfold ensure_ollama_running.
  rewrite bindM_eq, ollama_ok_full, Hhttp. reflexivity.
Qed.

Lemma unreachable_first (answers : list (result response)) :
  unreachable answers -> match answers with Ok _ :: _ => true | _ => false end = false.
Proof. intros H. destruct H as [| [resp | e] rest Ha _]; [reflexivity | destruct Ha | reflexivity]. Qed.

(** X8. With the executable on the search path, a backend that starts but
    never answers makes the launcher probe once, start [serve], probe
    [retry_seconds] more times and fail with the timeout diagnostic. *)
Theorem launcher_times_out (n : nat) (w : world) (bin : string) (a : proc_answer)
    (others : list proc_answer) (pid : Z) :
  search_path w !! "ollama" = Some bin ->
  unreachable (http w) ->
  procs w = a :: others ->
  proc_result a = Ok pid ->
  fst (ensure_ollama_running n w) =
    (false, "Ollama 起動待ちがタイムアウトしました。" +:+ nl
            +:+ "ログ保存先: " +:+ STARTUP_LOG_PATH) /\
  trace (snd (ensure_ollama_running n w)) =
    trace w ++ [HttpGet (OLLAMA +:+ "/api/tags")] ++ [Run [bin; "serve"]]
    ++ replicate n (HttpGet (OLLAMA +:+ "/api/tags")).
Proof.
  intros Hbin Hun Hprocs Hpid.
  remember (ensure_ollama_running n w) as r eqn:Hr.
  unfold ensure_ollama_running in Hr.
  rewrite bindM_eq, ollama_ok_full, (unreachable_first _ Hun) in Hr. cbn [fst snd] in Hr.
  set (w1 := World _ _ _ _ _ _ _) in Hr.
  rewrite bindM_eq in Hr.
  change (which "ollama" w1) with (search_path w !! "ollama", w1) in Hr.
  rewrite Hbin in Hr. cbn [fst snd] in Hr. rewrite bindM_eq in Hr. cbn [ret fst snd] in Hr.
  rewrite bindM_eq in Hr.
  assert (subprocess_run [bin; "serve"] w1 =
          (Ok pid, World (proc_installs a ∪ search_path w) (files w) (database w) (clock w)
                         (tail (http w)) others
                         (trace w ++ [HttpGet (OLLAMA +:+ "/api/tags")] ++ [Run [bin; "serve"]])))
    as Hrun.
  { unfold subprocess_run, record, bindM, w1. cbn. rewrite Hprocs, Hpid, <- app_assoc.
    reflexivity. }
  rewrite Hrun in Hr. cbn [fst snd] in Hr. rewrite bindM_eq in Hr.
  set (w3 := World _ _ _ _ _ _ _) in Hr.
  destruct (wait_ollama_cases n w3) as (_ & k & _ & Htrace & Hres).
  destruct (wait_ollama n w3) as [ok w4]. cbn [fst snd] in *.
  destruct ok.
  - destruct Hres as (i & resp & Hi).
    destruct (unreachable_lookup _ _ _ Hi (unreachable_tail _ Hun)).
  - subst k r. cbn [ret fst snd]. split; [reflexivity |].
    rewrite Htrace. unfold w3. cbn [trace]. rewrite <- !app_assoc. reflexivity.
Qed.

(** X9. Whatever happens, the launcher probes the backend at least once
    and at most [1 + retry_seconds] times, starts at most two subprocesses
    (the install and [serve]), posts nothing, and leaves the database and
    the clock alone. *)
Theorem launcher_footprint (n : nat) (w : world) :
  (probes (trace w) + 1 <= probes (trace (snd (ensure_ollama_running n w)))
   <= probes (trace w) + 1 + n)%nat /\
  (spawned (trace (snd (ensure_ollama_running n w))) <= spawned (trace w) + 2)%nat /\
  posted (trace (snd (ensure_ollama_running n w))) = posted (trace w) /\
  database (snd (ensure_ollama_running n w)) = database w /\
  clock (snd (ensure_ollama_running n w)) = clock w.
Proof.
  destruct (launcher_cases n w) as ((Hd & Hc) & more & -> & Hp & Ho & Hs & _).
  rewrite probes_app, posted_app, spawned_app, Ho.
  repeat split; try assumption; lia.
Qed.

(** X10. The launcher reports success only when the backend has answered
    a probe, and then with an empty message; every failure it reports
    carries the log pointer. *)
Theorem launcher_outcome (n : nat) (w : world) :
  match fst (fst (ensure_ollama_running n w)) with
  | true => snd (fst (ensure_ollama_running n w)) = "" /\ ~ unreachable (http w)
  | false => structured_failure (fst (ensure_ollama_running n w))
  end.
Proof.
  destruct (launcher_cases n w) as (_ & more & _ & _ & _ & _ & Hres). exact Hres.
Qed.

(** X11. When [serve] cannot be started, the launcher fails at once with
    the text of the exception and the log pointer, without polling. *)
Theorem launcher_serve_failure (n : nat) (w : world) (bin : string) (a : proc_answer)
    (others : list proc_answer) (e : exn) :
  fst (ollama_ok w) = false ->
  search_path w !! "ollama" = Some bin ->
  procs w = a :: others ->
  proc_result a = Raise e ->
  fst (ensure_ollama_running n w) =
    (false, "Ollama の自動起動に失敗しました: " +:+ str e +:+ nl
            +:+ "ログ保存先: " +:+ STARTUP_LOG_PATH) /\
  trace (snd (ensure_ollama_running n w)) =
    trace w ++ [HttpGet (OLLAMA +:+ "/api/tags"); Run [bin; "serve"]].
Proof.
  intros Hdown Hbin Hprocs Hraise.
  remember (ensure_ollama_running n w) as r eqn:Hr.
  unfold ensure_ollama_running in Hr.
  rewrite ollama_ok_full in Hdown. cbn [fst] in Hdown.
  rewrite bindM_eq, ollama_ok_full, Hdown in Hr. cbn [fst snd] in Hr.
  set (w1 := World _ _ _ _ _ _ _) in Hr.
  rewrite bindM_eq in Hr.
  change (which "ollama" w1) with (search_path w !! "ollama", w1) in Hr.
  rewrite Hbin in Hr. cbn [fst snd] in Hr. rewrite bindM_eq in Hr. cbn [ret fst snd] in Hr.
  rewrite bindM_eq in Hr.
  unfold subprocess_run, record, bindM, w1 in Hr. cbn in Hr.
  rewrite Hprocs, Hraise in Hr. cbn in Hr. subst r. cbn [fst snd trace].
  split; [reflexivity |]. rewrite <- app_assoc. reflexivity.
Qed.

(** X12. When the executable is missing and the installer fails, the
    launcher stops there: its result and the world it leaves are the
    installer's, and [serve] is never started. *)
Theorem launcher_stops_after_failed_install (n : nat) (w : world) :
  fst (ollama_ok w) = false ->
  search_path w !! "ollama" = None ->
  fst (fst (ensure_ollama_installed (snd (ollama_ok w)))) = false ->
  ensure_ollama_running n w = ensure_ollama_installed (snd (ollama_ok w)).
Proof.
  intros Hdown Hbin Hfail.
  unfold ensure_ollama_running. rewrite bindM_eq, Hdown.
  rewrite bindM_eq.
  assert (which "ollama" (snd (ollama_ok w)) = (None, snd (ollama_ok w))) as ->.
  { unfold which. rewrite ollama_ok_full. cbn [snd search_path]. rewrite Hbin. reflexivity. }
  cbn [fst snd]. rewrite bindM_eq. rewrite bindM_eq.
  destruct (ensure_ollama_installed (snd (ollama_ok w))) as [[ok msg] w2].
  cbn [fst snd] in *. subst ok. reflexivity.
Qed.

Lemma list_models_full (w : world) :
  list_models w =
  (match http w with a :: _ => listed a | [] => [] end,
   World (search_path w) (files w) (database w) (clock w) (tail (http w)) (procs w)
         (trace w ++ [HttpGet (OLLAMA +:+ "/api/tags")])).
Proof.
  unfold list_models, listed, requests_get, next_response, record, bindM, ret. cbn.
  destruct (http w) as [| a rest]; cbn; [reflexivity |].
  destruct (Py.bind a _); reflexivity.
Qed.

Lemma subprocess_run_full (cmd : list string) (w : world) (b : proc_answer)
    (others : list proc_answer) :
  procs w = b :: others ->
  subprocess_run cmd w =
  (proc_result b,
   World (proc_installs b ∪ search_path w) (files w) (database w) (clock w) (http w) others
         (trace w ++ [Run cmd])).
Proof.
  intros Hprocs. unfold subprocess_run, record, bindM. cbn. rewrite Hprocs. reflexivity.
Qed.

(** *** Model provisioner: further properties *)

(** X13. When the registry lists the model, the provisioner succeeds with
    that one request: it writes the ready marker, stamped with the time of
    the run, and starts no subprocess, whether or not the bundle or an
    older marker is there. *)
Theorem provisioner_fast_path (w : world) (a : result response)
    (rest : list (result response)) :
  http w = a :: rest ->
  contains (listed a) MODEL_NAME = true ->
  ensure_model_ready w =
  (true, "",
   World (search_path w) (<[MODEL_READY_FLAG := clock w]> (files w)) (database w) (clock w)
         rest (procs w) (trace w ++ [HttpGet (OLLAMA +:+ "/api/tags")])).
Proof.
  intros Hhttp Hlisted.
  pose proof (list_models_listed w) as Hvalue. rewrite Hhttp in Hvalue.
  unfold ensure_model_ready. rewrite bindM_eq, Hvalue, Hlisted.
  unfold list_models, requests_get, next_response, record, datetime_now_isoformat, write_text,
    bindM, ret. cbn. rewrite Hhttp. cbn.
  destruct (Py.bind a _); reflexivity.
Qed.

(** X14. The provisioner reports success only when the registry has
    answered, and then the ready marker holds the time of the run and the
    message is empty; every failure carries the log pointer and leaves the
    files as they were. *)
Theorem provisioner_outcome (w : world) :
  match fst (fst (ensure_model_ready w)) with
  | true =>
      snd (fst (ensure_model_ready w)) = "" /\
      files (snd (ensure_model_ready w)) !! MODEL_READY_FLAG = Some (clock w) /\
      ~ unreachable (http w)
  | false =>
      structured_failure (fst (ensure_model_ready w)) /\
      files (snd (ensure_model_ready w)) = files w
  end.
Proof.
  destruct (provisioner_cases w) as (_ & more & _ & _ & _ & _ & Hres). exact Hres.
Qed.

(** X15. Whatever happens, the provisioner asks the registry once or
    twice, starts at most one subprocess, posts nothing, touches no file
    other than the ready marker, and leaves the database and the clock
    alone. *)
Theorem provisioner_footprint (w : world) :
  (probes (trace w) + 1 <= probes (trace (snd (ensure_model_ready w)))
   <= probes (trace w) + 2)%nat /\
  (spawned (trace (snd (ensure_model_ready w))) <= spawned (trace w) + 1)%nat /\
  posted (trace (snd (ensure_model_ready w))) = posted (trace w) /\
  (forall p, p <> MODEL_READY_FLAG ->
             files (snd (ensure_model_ready w)) !! p = files w !! p) /\
  database (snd (ensure_model_ready w)) = database w /\
  clock (snd (ensure_model_ready w)) = clock w.
Proof.
  destruct (provisioner_cases w) as ((Hd & Hc & Hf) & more & -> & Hp & Ho & Hs & _).
  rewrite probes_app, posted_app, spawned_app, Ho.
  repeat split; try assumption; lia.
Qed.

(** X16. With the model absent from the registry and no bundled model
    definition, the provisioner fails naming the missing file, without
    looking at the marker and without starting the build. *)
Theorem provisioner_bundle_missing (w : world) :
  contains (fst (list_models w)) MODEL_NAME = false ->
  files w !! (bundled_model_dir </> "Modelfile") = None ->
  ensure_model_ready w =
  (false,
   "同梱モデルが見つかりません: " +:+ (bundled_model_dir </> "Modelfile") +:+ nl
   +:+ "ログ保存先: " +:+ STARTUP_LOG_PATH,
   snd (list_models w)).
Proof.
  intros Habsent Hbundle.
  destruct (list_models_frame w) as (_ & Hfiles & _).
  unfold ensure_model_ready. rewrite bindM_eq, Habsent, bindM_eq, path_exists_eq.
  cbn [fst snd]. rewrite Hfiles, Hbundle. reflexivity.
Qed.

(** The run of the provisioner that starts the build: the model is absent,
    the bundle is there, there is no marker, and the build returns. *)
Lemma provisioner_builds (w : world) (a1 a2 : result response)
    (rest : list (result response)) (text : string) (b : proc_answer)
    (others : list proc_answer) :
  http w = a1 :: a2 :: rest ->
  contains (listed a1) MODEL_NAME = false ->
  files w !! (bundled_model_dir </> "Modelfile") = Some text ->
  files w !! MODEL_READY_FLAG = None ->
  procs w = b :: others ->
  proc_result b = Ok 0 ->
  ensure_model_ready w =
  (let w3 := World (proc_installs b ∪ search_path w) (files w) (database w) (clock w) rest
                   others
                   (trace w ++ [HttpGet (OLLAMA +:+ "/api/tags");
                                Run ["ollama"; "create"; MODEL_NAME; "-f";
                                     bundled_model_dir </> "Modelfile"];
                                HttpGet (OLLAMA +:+ "/api/tags")]) in
   if contains (listed a2) MODEL_NAME then
     (true, "",
      World (search_path w3) (<[MODEL_READY_FLAG := clock w]> (files w)) (database w) (clock w)
            rest others (trace w3))
   else
     (false, "モデル準備後も登録確認できませんでした。" +:+ nl +:+ "ログ保存先: " +:+ STARTUP_LOG_PATH,
      w3)).
Proof.
  intros Hhttp Habsent Hbundle Hmark Hprocs Hzero.
  unfold ensure_model_ready.
  rewrite bindM_eq, list_models_full, Hhttp. cbn [fst snd tail]. rewrite Habsent.
  rewrite bindM_eq, path_exists_eq. cbn [fst snd files]. rewrite Hbundle. cbn [negb].
  rewrite bindM_eq, path_exists_eq. cbn [fst snd files]. rewrite Hmark.
  rewrite bindM_eq. unfold _run_logged.
  rewrite (subprocess_run_full _ _ b others) by exact Hprocs.
  cbn [fst snd]. rewrite Hzero. cbn [Z.eqb negb].
  rewrite bindM_eq, list_models_full. cbn [fst snd http tail trace search_path files database
    clock procs].
  rewrite <- !app_assoc. cbn [app].
  destruct (contains (listed a2) MODEL_NAME); reflexivity.
Qed.

(** X17. A build that exits with 0 is not taken at its word: when the
    registry still does not list the model afterwards, the provisioner
    fails, and no marker is written. *)
Theorem provisioner_unverified_build (w : world) (a1 a2 : result response)
    (rest : list (result response)) (text : string) (b : proc_answer)
    (others : list proc_answer) :
  http w = a1 :: a2 :: rest ->
  contains (listed a1) MODEL_NAME = false ->
  files w !! (bundled_model_dir </> "Modelfile") = Some text ->
  files w !! MODEL_READY_FLAG = None ->
  procs w = b :: others ->
  proc_result b = Ok 0 ->
  contains (listed a2) MODEL_NAME = false ->
  fst (ensure_model_ready w) =
    (false, "モデル準備後も登録確認できませんでした。" +:+ nl +:+ "ログ保存先: " +:+ STARTUP_LOG_PATH) /\
  files (snd (ensure_model_ready w)) = files w /\
  started (ensure_model_ready w) =
    filter (fun c => is_run c = true) (trace w)
    ++ [Run ["ollama"; "create"; MODEL_NAME; "-f"; bundled_model_dir </> "Modelfile"]].
Proof.
  intros Hhttp Habsent Hbundle Hmark Hprocs Hzero Hstill.
  unfold started.
  rewrite (provisioner_builds w a1 a2 rest text b others Hhttp Habsent Hbundle Hmark Hprocs
             Hzero), Hstill.
  cbn [fst snd files trace]. repeat split.
  rewrite filter_app. reflexivity.
Qed.

(** X18. A build that exits with 0 and after which the registry lists the
    model makes the provisioner succeed: one listing, the build, a second
    listing, and the ready marker stamped with the time of the run. *)
Theorem provisioner_build_succeeds (w : world) (a1 a2 : result response)
    (rest : list (result response)) (text : string) (b : proc_answer)
    (others : list proc_answer) :
  http w = a1 :: a2 :: rest ->
  contains (listed a1) MODEL_NAME = false ->
  files w !! (bundled_model_dir </> "Modelfile") = Some text ->
  files w !! MODEL_READY_FLAG = None ->
  procs w = b :: others ->
  proc_result b = Ok 0 ->
  contains (listed a2) MODEL_NAME = true ->
  fst (ensure_model_ready w) = (true, "") /\
  files (snd (ensure_model_ready w)) = <[MODEL_READY_FLAG := clock w]> (files w) /\
  trace (snd (ensure_model_ready w)) =
    trace w ++ [HttpGet (OLLAMA +:+ "/api/tags");
                Run ["ollama"; "create"; MODEL_NAME; "-f"; bundled_model_dir </> "Modelfile"];
                HttpGet (OLLAMA +:+ "/api/tags")].
Proof.
  intros Hhttp Habsent Hbundle Hmark Hprocs Hzero Hnow.
  rewrite (provisioner_builds w a1 a2 rest text b others Hhttp Habsent Hbundle Hmark Hprocs
             Hzero), Hnow.
  repeat split.
Qed.

(** *** Settings store: further properties *)

(** X20. [init_db] is idempotent, and it is silent: run again it changes
    nothing, and it never adds to the trace or touches a file. *)
Theorem init_db_idempotent (w : world) :
  snd (init_db (snd (init_db w))) = snd (init_db w) /\
  trace (snd (init_db w)) = trace w /\
  files (snd (init_db w)) = files w.
Proof.
  unfold init_db. cbn. split; [| split; reflexivity].
  destruct (database w) as [rows | e]; [| reflexivity].
  rewrite <- (assoc_L (∪)), (idemp_L (∪) seeded). reflexivity.
Qed.

(** X21. After [init_db] on a working database, [dbg] returns the stored
    value of every key that had a row and the seeded default of a key that
    had none ([None] when the key is not seeded either); in particular the
    temperature is always found. *)
Theorem init_db_keeps_rows (w : world) (rows : gmap string string) (k : string) :
  database w = Ok rows ->
  fst (dbg k (snd (init_db w))) =
    Ok (match rows !! k with Some v => Some v | None => seeded !! k end) /\
  exists v, fst (dbg "temperature" (snd (init_db w))) = Ok (Some v).
Proof.
  intros Hdb.
  assert (forall key, fst (dbg key (snd (init_db w))) =
                      Ok (match rows !! key with Some v => Some v | None => seeded !! key end))
    as Hget.
  { intros key. unfold dbg, init_db. cbn. rewrite Hdb. f_equal.
    rewrite lookup_union. destruct (rows !! key), (seeded !! key); reflexivity. }
  split; [apply Hget |].
  rewrite Hget. destruct (rows !! "temperature"); eauto.
Qed.

(** *** Streaming gateway: further properties *)




(** X26. A request whose JSON body is not an object (a non-empty array or
    string, a number, [true]) is not answered by the route: [d.get] raises
    [AttributeError], Flask answers 500, and nothing is sent to the
    backend. *)
Theorem chat_body_not_an_object (j : json) (w : world) :
  truthy j = true ->
  (forall fields, j <> JObj fields) ->
  chat (Ok j) w = (Unhandled AttributeError, w) /\
  reply_status (fst (chat (Ok j) w)) = 500.
Proof.
  intros Htruthy Hshape.
  assert (chat (Ok j) w = (Unhandled AttributeError, w)) as ->.
  { unfold chat. rewrite Htruthy.
    destruct j; try reflexivity. destruct (Hshape fields eq_refl). }
  split; reflexivity.
Qed.

Lemma decode_without_blanks (ls : lines) : decode (without_blanks ls) = decode ls.
Proof.
  induction ls as [| e | l rest IH]; try reflexivity.
  destruct l as [| [d | e]]; cbn [without_blanks decode]; [exact IH | | reflexivity].
  rewrite IH. reflexivity.
Qed.

(** X27. Blank lines in the backend's answer leave no mark on the outbound
    stream: two answers of the same status whose bodies differ only by
    blank lines give the same events. *)
Theorem chat_blank_lines_ignored (j : json) (msg : string) (model : json) (w w' : world)
    (probe probe' resp resp' : response) (rest rest' : list (result response)) :
  well_formed j msg model ->
  http w = Ok probe :: Ok resp :: rest ->
  http w' = Ok probe' :: Ok resp' :: rest' ->
  fst (temperature w') = fst (temperature w) ->
  status_code resp' = status_code resp ->
  iter_lines resp' = without_blanks (iter_lines resp) ->
  fst (chat (Ok j) w') = fst (chat (Ok j) w).
Proof.
  intros Hwf Hhttp Hhttp' Htemp Hstatus Hbody.
  rewrite (chat_events _ _ _ _ _ _ Hwf Hhttp), (chat_events _ _ _ _ _ _ Hwf Hhttp'), Htemp.
  unfold pulls_of, raise_for_status. rewrite Hstatus, Hbody, decode_without_blanks.
  reflexivity.
Qed.

(** *** The status route *)

(** X29. The status route probes the backend twice and lists the models
    only when the second probe is answered: it reports [ollama] from the
    first probe and [models] from the listing that follows the second, so
    it sends two or three requests and always reports [online]. *)
Theorem status_requests (w : world) :
  fst (status w) =
    StatusReply (answered (http w !! 0%nat)) true
      (if answered (http w !! 1%nat)
       then match http w !! 2%nat with Some a => listed a | None => [] end
       else []) /\
  trace (snd (status w)) =
    trace w ++ HttpGet (OLLAMA +:+ "/api/tags") :: HttpGet (OLLAMA +:+ "/api/tags")
    :: (if answered (http w !! 1%nat) then [HttpGet (OLLAMA +:+ "/api/tags")] else []).
Proof.
  unfold status. rewrite bindM_eq, ollama_ok_full. cbn [fst snd].
  rewrite bindM_eq, ollama_ok_full. cbn [fst snd http trace tail].
  rewrite bindM_eq.
  destruct (http w) as [| a1 [| a2 rest]].
  - cbn. rewrite <- app_assoc. split; reflexivity.
  - cbn. rewrite <- app_assoc. destruct a1; split; reflexivity.
  - cbn [tail lookup list_lookup answered].
    destruct a2 as [resp2 | e2].
    + rewrite list_models_full. cbn [fst snd http trace ret].
      rewrite <- !app_assoc. cbn [app].
      destruct rest as [| a3 rest]; destruct a1; split; reflexivity.
    + cbn [ret fst snd trace]. rewrite <- app_assoc. destruct a1; split; reflexivity.
Qed.

(** *** Startup *)

(** X30. [main] reaches the start of the server only with the backend
    answering and the ready marker stamped with the time of the run; any
    other run ends in [fail_and_exit] with a diagnostic that carries the
    log pointer, or, when the port is taken, before anything is probed,
    started or written. A start probes the backend at most 33 times,
    starts at most three subprocesses and posts nothing. *)
Theorem main_outcome (w : world) :
  (is_Some (fst (main true w)) /\ snd (main true w) = w) /\
  ((probes (trace (snd (main false w))) <= probes (trace w) + 33)%nat /\
   (spawned (trace (snd (main false w))) <= spawned (trace w) + 3)%nat /\
   posted (trace (snd (main false w))) = posted (trace w)) /\
  match fst (main false w) with
  | None =>
      files (snd (main false w)) !! MODEL_READY_FLAG = Some (clock w) /\
      ~ unreachable (http w)
  | Some msg => carries_log_pointer msg
  end.
Proof.
  split; [split; [eexists |]; reflexivity |].
  remember (main false w) as r eqn:Hr.
  unfold main in Hr. rewrite bindM_eq in Hr.
  destruct (launcher_cases 30 w) as ((_ & Hc) & more & Htr & Hp & Ho & Hs & Hres).
  destruct (ensure_ollama_running 30 w) as [[ok msg] w1]. cbn [fst snd] in *.
  destruct ok; cbn [negb] in Hr.
  - rewrite bindM_eq in Hr.
    destruct (provisioner_cases w1) as (_ & more' & Htr' & Hp' & Ho' & Hs' & Hres').
    destruct (ensure_model_ready w1) as [[ok' msg'] w2]. cbn [fst snd] in *.
    assert ((probes (trace w2) <= probes (trace w) + 33)%nat /\
            (spawned (trace w2) <= spawned (trace w) + 3)%nat /\
            posted (trace w2) = posted (trace w)) as Hcounts.
    { rewrite Htr', Htr, !probes_app, !spawned_app, !posted_app. lia. }
    destruct ok'; subst r; cbn [negb ret fst snd].
    + split; [exact Hcounts |]. destruct Hres as [_ Hanswered].
      destruct Hres' as (_ & Hmark & _). rewrite Hc in Hmark. split; assumption.
    + split; [exact Hcounts |]. apply Hres'.
  - subst r. cbn [ret fst snd]. split; [| apply Hres].
    rewrite Htr, !probes_app, !spawned_app, !posted_app. lia.
Qed.

End Program.

(** ** The properties on the sample machine *)

Example float_seeded : float_of_str "0.7" = Ok (FDec false 7 (-1)).
Proof. reflexivity. Qed.

Example float_forms :
  float_of_str " 1_0.25e-3 " = Ok (FDec false 1025 (-5)) /\
  float_of_str "-.5" = Ok (FDec true 5 (-1)) /\
  float_of_str "3." = Ok (FDec false 3 0) /\
  float_of_str "-Infinity" = Ok (FInf true) /\
  float_of_str "1_" = Raise ValueError /\
  float_of_str "1e" = Raise ValueError /\
  float_of_str "." = Raise ValueError /\
  float_of_str "0,7" = Raise ValueError /\
  float_of_str "hot" = Raise ValueError.
Proof. repeat split; reflexivity. Qed.

(** A store [init_db] has just created holds the seeded rows, and a stored
    row survives a later [init_db]. *)
Example init_db_seeds :
  fst (dbg "temperature" (snd (init_db (World ∅ ∅ (Ok ∅) stamp [] [] [])))) = Ok (Some "0.7") /\
  fst (dbg "context_length" (snd (init_db (World ∅ ∅ (Ok ∅) stamp [] [] [])))) = Ok (Some "20") /\
  fst (dbg "temperature" (snd (init_db (with_setting "temperature" "0.2" blank_world)))) =
  Ok (Some "0.2").
Proof. repeat split; vm_compute; reflexivity. Qed.

Example strip_forms :
  strip "  hi there  " = "hi there" /\ strip "   " = "" /\ strip "" = "".
Proof. repeat split; reflexivity. Qed.

Lemma ask_well_formed : well_formed ask "Say hello" (JStr MODEL_NAME).
Proof.
  exists [("message", JStr "Say hello"); ("model", JStr MODEL_NAME)], "Say hello".
  repeat split; discriminate.
Defined.





(** A request without a model, and one without a body, are rejected the
    same way. *)
Example model_missing_rejected :
  chat dev_home class_name (Ok (JObj [("message", JStr "Say hello")])) (serving (body_of hello)) =
  (Json "message/model が必要" 400, serving (body_of hello)) /\
  chat dev_home class_name (Ok JNull) (serving (body_of hello)) =
  (Json "message/model が必要" 400, serving (body_of hello)).
Proof. split; reflexivity. Qed.


(** C9 with the stored temperature "hot". *)
Lemma malformed_temperature_fails_chat_witness :
  fst (chat dev_home class_name (Ok ask)
         (with_setting "temperature" "hot" (serving (body_of hello)))) =
  EventStream [EError "ValueError"] /\
  filter (fun c => is_post c = true)
    (trace (snd (chat dev_home class_name (Ok ask)
                   (with_setting "temperature" "hot" (serving (body_of hello)))))) = [].
Proof.
  apply (malformed_temperature_fails_chat dev_home class_name ask "Say hello" (JStr MODEL_NAME)
           (with_setting "temperature" "hot" (serving (body_of hello)))
           (tags [MODEL_NAME]) [Ok (streaming (body_of hello))]
           (<["temperature" := "hot"]> seeded) "hot" ValueError);
    [exact ask_well_formed | reflexivity | reflexivity | reflexivity | discriminate
    | reflexivity].
Defined.

(** With the seeded temperature, or none, the same request is relayed, at
    the stored or the default temperature. *)
Example stored_temperature_used :
  fst (temperature (serving (body_of hello))) = Ok (FDec false 7 (-1)) /\
  fst (temperature (with_setting "temperature" "0.25" (serving (body_of hello)))) =
  Ok (FDec false 25 (-2)) /\
  fst (temperature (with_setting "temperature" "" (serving (body_of hello)))) =
  Ok default_temperature.
Proof. repeat split; reflexivity. Qed.

(** C6, the claim as stated: a backend that answers 500 passes the health
    check, although [raise_for_status] would reject its answer. *)
Lemma ollama_ok_accepts_server_error :
  raise_for_status (Response 500 (Raise JSONDecodeError) Eof) = Raise (HTTPError 500) /\
  fst (ollama_ok (scripted [Ok (Response 500 (Raise JSONDecodeError) Eof)] [] blank_world)) = true.
Proof. split; reflexivity. Qed.

(** C1: the marker of an earlier attempt is there, and the install starts. *)
Lemma install_retried_despite_marker_witness :
  exists more,
    trace (snd (ensure_ollama_installed dev_home
                  (scripted [] [exits 1]
                     (with_file (OLLAMA_SETUP_FLAG dev_home) stamp (with_brew blank_world))))) =
    [] ++ Run ["brew"; "install"; "ollama"] :: more.
Proof.
  apply (install_retried_despite_marker dev_home
           (scripted [] [exits 1]
              (with_file (OLLAMA_SETUP_FLAG dev_home) stamp (with_brew blank_world)))
           "/opt/homebrew/bin/brew");
    [reflexivity | reflexivity | exists stamp; reflexivity].
Defined.

(** Two starts of the launcher on a machine where the install keeps
    failing: each one runs the package manager, the second with the marker
    of the first in place. *)
Example install_attempted_at_every_start :
  map started (runs (ensure_ollama_running dev_home class_name 30) [brew_fails; brew_fails]
                 (with_brew blank_world)) =
  [[Run ["brew"; "install"; "ollama"]]; [Run ["brew"; "install"; "ollama"]]] /\
  map (fun r => files (snd r) !! OLLAMA_SETUP_FLAG dev_home)
      (runs (ensure_ollama_running dev_home class_name 30) [brew_fails; brew_fails]
         (with_brew blank_world)) =
  [Some stamp; Some stamp].
Proof. split; vm_compute; reflexivity. Qed.

(** C5: the install times out, and no marker is written. *)
Lemma install_marker_skipped_on_exception_witness :
  (exists more,
     trace (snd (ensure_ollama_installed dev_home
                   (scripted [] [raises TimeoutExpired] (with_brew blank_world)))) =
     [] ++ Run ["brew"; "install"; "ollama"] :: more) /\
  files (snd (ensure_ollama_installed dev_home
                (scripted [] [raises TimeoutExpired] (with_brew blank_world)))) = ∅.
Proof.
  apply (install_marker_skipped_on_exception dev_home
           (scripted [] [raises TimeoutExpired] (with_brew blank_world))
           "/opt/homebrew/bin/brew" (raises TimeoutExpired) [] TimeoutExpired);
    reflexivity.
Defined.

(** C4: the marker is there and the registry is empty. *)
Lemma provisioning_guarded_by_marker_witness :
  structured_failure dev_home
    (fst (ensure_model_ready dev_home dev_resources class_name
            (scripted [Ok (tags [])] [exits 0]
               (with_file (MODEL_READY_FLAG dev_home) stamp (bundled dev_resources blank_world)))))
  /\
  started (ensure_model_ready dev_home dev_resources class_name
             (scripted [Ok (tags [])] [exits 0]
                (with_file (MODEL_READY_FLAG dev_home) stamp (bundled dev_resources blank_world))))
  = [] /\
  files (snd (ensure_model_ready dev_home dev_resources class_name
                (scripted [Ok (tags [])] [exits 0]
                   (with_file (MODEL_READY_FLAG dev_home) stamp
                      (bundled dev_resources blank_world))))) =
  files (with_file (MODEL_READY_FLAG dev_home) stamp (bundled dev_resources blank_world)) /\
  Forall (fun r => started r = [])
    (runs (ensure_model_ready dev_home dev_resources class_name) [build_exits 0; build_exits 0]
       (snd (ensure_model_ready dev_home dev_resources class_name
               (scripted [Ok (tags [])] [exits 0]
                  (with_file (MODEL_READY_FLAG dev_home) stamp
                     (bundled dev_resources blank_world)))))).
Proof.
  apply (provisioning_guarded_by_marker dev_home dev_resources class_name
           (scripted [Ok (tags [])] [exits 0]
              (with_file (MODEL_READY_FLAG dev_home) stamp (bundled dev_resources blank_world)))
           [build_exits 0; build_exits 0]);
    [exists stamp; reflexivity | reflexivity].
Defined.

(** C4, the claim as stated: on a machine where the build fails, two
    starts run the build command, one each; no marker is left in between. *)
Lemma build_attempted_at_every_start :
  map started (runs (ensure_model_ready dev_home dev_resources class_name)
                 [build_exits 1; build_exits 1] (bundled dev_resources blank_world)) =
  [[Run ["ollama"; "create"; MODEL_NAME; "-f";
         "/Applications/NEXUS PRO.app/Contents/Resources/bundled_models/qwen2.5-coder:7b/Modelfile"]];
   [Run ["ollama"; "create"; MODEL_NAME; "-f";
         "/Applications/NEXUS PRO.app/Contents/Resources/bundled_models/qwen2.5-coder:7b/Modelfile"]]]
  /\
  map (fun r => files (snd r) !! MODEL_READY_FLAG dev_home)
      (runs (ensure_model_ready dev_home dev_resources class_name)
         [build_exits 1; build_exits 1] (bundled dev_resources blank_world)) =
  [None; None].
Proof. split; vm_compute; reflexivity. Qed.

(** A backend that reports completion in a unit of its own, with an empty
    content: the unit is a fragment like the others and is relayed as a
    text event before the done event. *)
Example done_unit_relayed_as_text :
  fst (chat dev_home class_name (Ok ask)
         (serving (body_of [("Hel", false); ("lo", false); ("", true)]))) =
  EventStream [EText "Hel"; EText "lo"; EText ""; EDone].
Proof. reflexivity. Qed.

(** Blank lines are skipped, and what follows a fragment flagged done is
    not relayed. *)
Example blank_lines_and_late_fragments :
  fst (chat dev_home class_name (Ok ask)
         (serving (Next Blank (body_then [("Hel", true); ("lo", false)] Eof)))) =
  EventStream [EText "Hel"; EDone].
Proof. reflexivity. Qed.

(** A request whose message is not a string is left to Flask, and nothing
    is sent to the backend. *)
Example message_not_a_string :
  chat dev_home class_name (Ok (JObj [("message", JInt 5)])) (serving (body_of hello)) =
  (Unhandled AttributeError, serving (body_of hello)).
Proof. reflexivity. Qed.

(** ** The further properties on the sample machine *)

(** X1 with two models listed under an error status. *)
Lemma list_models_lists_names_witness :
  fst (list_models
         (scripted [Ok (Response 500 (Ok (listing [MODEL_NAME; "llama3"])) Eof)] []
            blank_world)) = [JStr MODEL_NAME; JStr "llama3"] /\
  forall x,
    contains (fst (list_models
                     (scripted [Ok (Response 500 (Ok (listing [MODEL_NAME; "llama3"])) Eof)] []
                        blank_world))) x = true <-> In x [MODEL_NAME; "llama3"].
Proof.
  apply (list_models_lists_names
           (scripted [Ok (Response 500 (Ok (listing [MODEL_NAME; "llama3"])) Eof)] []
              blank_world)
           (Response 500 (Ok (listing [MODEL_NAME; "llama3"])) Eof) []
           [MODEL_NAME; "llama3"]); reflexivity.
Defined.

(** X2 with a nameless entry after a good one. *)
Lemma list_models_discards_malformed_witness :
  fst (list_models
         (scripted [Ok (Response 200 (Ok (JObj [("models", JArr [entry MODEL_NAME; JObj []])]))
                          Eof)] [] blank_world)) = [].
Proof.
  apply (list_models_discards_malformed _
           (Response 200 (Ok (JObj [("models", JArr [entry MODEL_NAME; JObj []])])) Eof) []
           [("models", JArr [entry MODEL_NAME; JObj []])] [entry MODEL_NAME; JObj []]
           (JObj []) KeyError);
    [reflexivity | reflexivity | reflexivity | right; left; reflexivity | reflexivity].
Defined.

(** X3 on a machine with nothing installed. *)
Lemma installer_without_package_manager_witness :
  structured_failure dev_home (fst (ensure_ollama_installed dev_home blank_world)) /\
  trace (snd (ensure_ollama_installed dev_home blank_world)) = [BrowserOpen installer_url] /\
  files (snd (ensure_ollama_installed dev_home blank_world)) = ∅ /\
  search_path (snd (ensure_ollama_installed dev_home blank_world)) = ∅.
Proof.
  apply (installer_without_package_manager dev_home blank_world); reflexivity.
Defined.

(** X6: the marker is written when the install exits with 1. *)
Lemma install_marker_written_on_return_witness :
  files (snd (ensure_ollama_installed dev_home (scripted [] [exits 1] (with_brew blank_world))))
  !! OLLAMA_SETUP_FLAG dev_home = Some stamp.
Proof.
  apply (install_marker_written_on_return dev_home
           (scripted [] [exits 1] (with_brew blank_world)) "/opt/homebrew/bin/brew"
           (exits 1) [] 1); reflexivity.
Defined.

(** X7 on a machine without the executable, the backend answering. *)
Lemma launcher_fast_path_witness :
  ensure_ollama_running dev_home class_name 30 (scripted [Ok (tags [])] [] blank_world) =
  (true, "", World ∅ ∅ (Ok seeded) stamp [] [] [HttpGet "http://localhost:11434/api/tags"]).
Proof.
  apply (launcher_fast_path dev_home class_name 30 (scripted [Ok (tags [])] [] blank_world)
           (tags []) []); reflexivity.
Defined.

(** X8 with three retries. *)
Lemma launcher_times_out_witness :
  fst (ensure_ollama_running dev_home class_name 3
         (scripted [] [exits 0] (with_ollama blank_world))) =
    (false, "Ollama 起動待ちがタイムアウトしました。" +:+ nl
            +:+ "ログ保存先: /Users/dev/Library/Logs/NEXUS_PRO/startup.log") /\
  trace (snd (ensure_ollama_running dev_home class_name 3
                (scripted [] [exits 0] (with_ollama blank_world)))) =
    [HttpGet "http://localhost:11434/api/tags"; Run ["/opt/homebrew/bin/ollama"; "serve"];
     HttpGet "http://localhost:11434/api/tags"; HttpGet "http://localhost:11434/api/tags";
     HttpGet "http://localhost:11434/api/tags"].
Proof.
  apply (launcher_times_out dev_home class_name 3
           (scripted [] [exits 0] (with_ollama blank_world)) "/opt/homebrew/bin/ollama"
           (exits 0) [] 0);
    [reflexivity | constructor | reflexivity | reflexivity].
Defined.

(** X11 when the executable cannot be run. *)
Lemma launcher_serve_failure_witness :
  fst (ensure_ollama_running dev_home class_name 30
         (scripted [] [raises OSError] (with_ollama blank_world))) =
    (false, "Ollama の自動起動に失敗しました: OSError" +:+ nl
            +:+ "ログ保存先: /Users/dev/Library/Logs/NEXUS_PRO/startup.log") /\
  trace (snd (ensure_ollama_running dev_home class_name 30
                (scripted [] [raises OSError] (with_ollama blank_world)))) =
    [HttpGet "http://localhost:11434/api/tags"; Run ["/opt/homebrew/bin/ollama"; "serve"]].
Proof.
  apply (launcher_serve_failure dev_home class_name 30
           (scripted [] [raises OSError] (with_ollama blank_world)) "/opt/homebrew/bin/ollama"
           (raises OSError) [] OSError); reflexivity.
Defined.

(** X12 when the package manager fails. *)
Lemma launcher_stops_after_failed_install_witness :
  ensure_ollama_running dev_home class_name 30 (scripted [] [exits 1] (with_brew blank_world)) =
  ensure_ollama_installed dev_home
    (snd (ollama_ok (scripted [] [exits 1] (with_brew blank_world)))).
Proof.
  apply (launcher_stops_after_failed_install dev_home class_name 30
           (scripted [] [exits 1] (with_brew blank_world))); reflexivity.
Defined.

(** X13 with the model in the registry and an empty bundle. *)
Lemma provisioner_fast_path_witness :
  ensure_model_ready dev_home dev_resources class_name
    (scripted [Ok (tags [MODEL_NAME])] [] blank_world) =
  (true, "",
   World ∅ (<[MODEL_READY_FLAG dev_home := stamp]> ∅) (Ok seeded) stamp [] []
         [HttpGet "http://localhost:11434/api/tags"]).
Proof.
  apply (provisioner_fast_path dev_home dev_resources class_name
           (scripted [Ok (tags [MODEL_NAME])] [] blank_world) (Ok (tags [MODEL_NAME])) []);
    reflexivity.
Defined.

(** X16 with an empty registry and an empty bundle. *)
Lemma provisioner_bundle_missing_witness :
  ensure_model_ready dev_home dev_resources class_name (scripted [Ok (tags [])] [] blank_world) =
  (false,
   "同梱モデルが見つかりません: " +:+ (bundled_model_dir dev_resources </> "Modelfile") +:+ nl
   +:+ "ログ保存先: " +:+ STARTUP_LOG_PATH dev_home,
   snd (list_models (scripted [Ok (tags [])] [] blank_world))).
Proof.
  apply (provisioner_bundle_missing dev_home dev_resources class_name
           (scripted [Ok (tags [])] [] blank_world)); reflexivity.
Defined.

(** X19: a build that exits with 1. *)
Lemma failed_build_leaves_no_marker_witness :
  fst (fst (ensure_model_ready dev_home dev_resources class_name
              (scripted [Ok (tags []); Ok (tags [])] [exits 1]
                 (bundled dev_resources blank_world)))) = false /\
  files (snd (ensure_model_ready dev_home dev_resources class_name
                (scripted [Ok (tags []); Ok (tags [])] [exits 1]
                   (bundled dev_resources blank_world)))) =
  files (bundled dev_resources blank_world) /\
  started (ensure_model_ready dev_home dev_resources class_name
             (scripted [Ok (tags []); Ok (tags [])] [exits 1]
                (bundled dev_resources blank_world))) =
  [] ++ [Run ["ollama"; "create"; MODEL_NAME; "-f";
              bundled_model_dir dev_resources </> "Modelfile"]].
Proof.
  apply (failed_build_leaves_no_marker dev_home dev_resources class_name
           (scripted [Ok (tags []); Ok (tags [])] [exits 1] (bundled dev_resources blank_world))
           "FROM ./qwen2.5-coder-7b.gguf" (exits 1) []);
    [reflexivity | reflexivity | reflexivity | reflexivity |].
  intros returncode H. injection H as <-. discriminate.
Defined.

(** X17: the build exits with 0 and the registry stays empty. *)
Lemma provisioner_unverified_build_witness :
  fst (ensure_model_ready dev_home dev_resources class_name
         (scripted [Ok (tags []); Ok (tags [])] [exits 0] (bundled dev_resources blank_world))) =
    (false, "モデル準備後も登録確認できませんでした。" +:+ nl
            +:+ "ログ保存先: " +:+ STARTUP_LOG_PATH dev_home) /\
  files (snd (ensure_model_ready dev_home dev_resources class_name
                (scripted [Ok (tags []); Ok (tags [])] [exits 0]
                   (bundled dev_resources blank_world)))) =
  files (bundled dev_resources blank_world) /\
  started (ensure_model_ready dev_home dev_resources class_name
             (scripted [Ok (tags []); Ok (tags [])] [exits 0]
                (bundled dev_resources blank_world))) =
  [] ++ [Run ["ollama"; "create"; MODEL_NAME; "-f";
              bundled_model_dir dev_resources </> "Modelfile"]].
Proof.
  apply (provisioner_unverified_build dev_home dev_resources class_name
           (scripted [Ok (tags []); Ok (tags [])] [exits 0] (bundled dev_resources blank_world))
           (Ok (tags [])) (Ok (tags [])) [] "FROM ./qwen2.5-coder-7b.gguf" (exits 0) []);
    reflexivity.
Defined.

(** X18: the build exits with 0 and the registry then lists the model. *)
Lemma provisioner_build_succeeds_witness :
  fst (ensure_model_ready dev_home dev_resources class_name
         (scripted [Ok (tags []); Ok (tags [MODEL_NAME])] [exits 0]
            (bundled dev_resources blank_world))) = (true, "") /\
  files (snd (ensure_model_ready dev_home dev_resources class_name
                (scripted [Ok (tags []); Ok (tags [MODEL_NAME])] [exits 0]
                   (bundled dev_resources blank_world)))) =
  <[MODEL_READY_FLAG dev_home := stamp]> (files (bundled dev_resources blank_world)) /\
  trace (snd (ensure_model_ready dev_home dev_resources class_name
                (scripted [Ok (tags []); Ok (tags [MODEL_NAME])] [exits 0]
                   (bundled dev_resources blank_world)))) =
  [HttpGet "http://localhost:11434/api/tags";
   Run ["ollama"; "create"; MODEL_NAME; "-f"; bundled_model_dir dev_resources </> "Modelfile"];
   HttpGet "http://localhost:11434/api/tags"].
Proof.
  apply (provisioner_build_succeeds dev_home dev_resources class_name
           (scripted [Ok (tags []); Ok (tags [MODEL_NAME])] [exits 0]
              (bundled dev_resources blank_world))
           (Ok (tags [])) (Ok (tags [MODEL_NAME])) [] "FROM ./qwen2.5-coder-7b.gguf"
           (exits 0) []);
    reflexivity.
Defined.

(** X21 on a store that holds a temperature and nothing else. *)
Lemma init_db_keeps_rows_witness :
  fst (dbg "context_length"
         (snd (init_db (World ∅ ∅ (Ok {["temperature" := "0.2"]}) stamp [] [] [])))) =
    Ok (Some "20") /\
  exists v,
    fst (dbg "temperature"
           (snd (init_db (World ∅ ∅ (Ok {["temperature" := "0.2"]}) stamp [] [] [])))) =
    Ok (Some v).
Proof.
  destruct (init_db_keeps_rows (World ∅ ∅ (Ok {["temperature" := "0.2"]}) stamp [] [] [])
              {["temperature" := "0.2"]} "context_length" eq_refl) as [Hget Htemp].
  split; [rewrite Hget; reflexivity | exact Htemp].
Defined.

(** X22: an empty stored temperature gives the default. *)
Lemma temperature_default_witness :
  fst (temperature (with_setting "temperature" "" blank_world)) = Ok default_temperature.
Proof.
  apply (temperature_default (with_setting "temperature" "" blank_world)
           (<["temperature" := ""]> seeded)); [reflexivity | right; reflexivity].
Defined.




(** X26 with an array as the body. *)
Lemma chat_body_not_an_object_witness :
  chat dev_home class_name (Ok (JArr [JStr "Say hello"])) (serving (body_of hello)) =
  (Unhandled AttributeError, serving (body_of hello)) /\
  reply_status (fst (chat dev_home class_name (Ok (JArr [JStr "Say hello"]))
                       (serving (body_of hello)))) = 500.
Proof.
  apply (chat_body_not_an_object dev_home class_name (JArr [JStr "Say hello"])
           (serving (body_of hello))); [reflexivity | discriminate].
Defined.

(** X28: a request without a message sends nothing. *)
Lemma rejected_request_sends_nothing_witness :
  snd (chat dev_home class_name (Ok (JObj [("model", JStr MODEL_NAME)]))
         (serving (body_of hello))) = serving (body_of hello).
Proof.
  apply (rejected_request_sends_nothing dev_home class_name
           (Ok (JObj [("model", JStr MODEL_NAME)])) (serving (body_of hello)));
    discriminate.
Defined.

(** X27 with keep-alive lines around the fragments. *)
Lemma chat_blank_lines_ignored_witness :
  fst (chat dev_home class_name (Ok ask) (serving (body_of hello))) =
  fst (chat dev_home class_name (Ok ask)
         (serving (Next Blank (body_then [("Hel", false)]
                                 (Next Blank (body_of [("lo", true)])))))).
Proof.
  apply (chat_blank_lines_ignored dev_home class_name ask "Say hello" (JStr MODEL_NAME)
           (serving (Next Blank (body_then [("Hel", false)]
                                   (Next Blank (body_of [("lo", true)])))))
           (serving (body_of hello))
           (tags [MODEL_NAME]) (tags [MODEL_NAME])
           (streaming (Next Blank (body_then [("Hel", false)]
                                     (Next Blank (body_of [("lo", true)])))))
           (streaming (body_of hello)) [] []);
    [exact ask_well_formed | reflexivity ..].
Defined.

(** The status route while the backend comes up between its two probes:
    it reports the backend down and lists its models. *)
Example status_between_probes :
  fst (status (scripted [Raise ConnectionError; Ok (tags []); Ok (tags [MODEL_NAME])] []
                 blank_world)) =
  StatusReply false true [JStr MODEL_NAME].
Proof. reflexivity. Qed.
